(** * asip: the Alexa site-info page parser

    A shallow embedding of [asip.go].  The Go packages the parser calls
    ([strings], [strconv], [fmt], [errors], [x/net/html], [goquery],
    [net/http]) are modelled first, one module each, as far as the parser
    uses them; the parser itself follows, function by function, under the
    names it has in the source. *)

From Stdlib Require Import ZArith List String Ascii Bool Lia Sorted.
From Stdlib Require Import DecimalString.
Import ListNotations.

Local Open Scope string_scope.
Local Open Scope list_scope.

(** A Go [string] is a sequence of bytes: [String.string], whose characters
    are the 256 values of [ascii]. *)

Definition byte (c : ascii) : N := N_of_ascii c.

Definition bytes (l : list N) : string :=
  string_of_list_ascii (map ascii_of_N l).

Definition inRange (lo hi : N) (c : ascii) : bool :=
  (N.leb lo (byte c) && N.leb (byte c) hi)%bool.

(** ** Errors *)

(** The two causes [strconv] reports in a [*NumError]. *)
Inductive numErr : Type :=
| ErrSyntax
| ErrRange.

(** A Go [error] value, as far as the package can meet one:
    an [*errors.errorString] made by [errors.New] or [fmt.Errorf], a
    [*strconv.NumError], or an error handed in from outside the package
    (the reader, the HTTP client). *)
Inductive error : Type :=
| errorString (s : string)
| NumError (Func Num : string) (Err : numErr)
| foreignError (msg : string).

(** What a library call gives that returns a pointer and an error of
    which exactly one is [nil]. *)
Inductive result (A : Type) : Type :=
| Ok (a : A)
| Err (e : error).
Arguments Ok {A} a.
Arguments Err {A} e.

Module errors.
Definition New (text : string) : error := errorString text.
End errors.

(** ** unicode/utf8, as far as [strings] needs it *)

Module utf8.

Definition cont (c : ascii) : bool := inRange 128 191 c.

(** Width in bytes of the first rune of a non-empty string whose first
    byte is [c0] and whose rest is [r]: the size [DecodeRuneInString]
    returns, 1 for an invalid or truncated encoding. *)
Definition runeWidth (c0 : ascii) (r : string) : nat :=
  let b0 := byte c0 in
  if N.ltb b0 128 then 1%nat
  else match r with
  | String c1 r1 =>
    if inRange 194 223 c0 then (if cont c1 then 2 else 1)%nat
    else
      let second3 :=
        (if N.eqb b0 224 then inRange 160 191 c1
         else if N.eqb b0 237 then inRange 128 159 c1
         else inRange 225 239 c0 && cont c1)%bool in
      let second4 :=
        (if N.eqb b0 240 then inRange 144 191 c1
         else if N.eqb b0 244 then inRange 128 143 c1
         else inRange 241 243 c0 && cont c1)%bool in
      match r1 with
      | String c2 r2 =>
        if (second3 && cont c2)%bool then 3%nat
        else match r2 with
        | String c3 _ =>
          if (second4 && cont c2 && cont c3)%bool then 4%nat else 1%nat
        | EmptyString => 1%nat
        end
      | EmptyString => 1%nat
      end
  | EmptyString => 1%nat
  end.

End utf8.

(** ** strings *)

Module strings.

(** [unicode.IsSpace], read on the UTF-8 encoding of the rune.  The white
    space runes are U+0009..U+000D, U+0020, U+0085, U+00A0, U+1680,
    U+2000..U+200A, U+2028, U+2029, U+202F, U+205F and U+3000; each has
    exactly one valid encoding, of one, two or three bytes. *)
Definition isSpace1 (a : ascii) : bool :=
  (inRange 9 13 a || N.eqb (byte a) 32)%bool.

Definition isSpace2 (a b : ascii) : bool :=
  (N.eqb (byte a) 194 && (N.eqb (byte b) 133 || N.eqb (byte b) 160))%bool.

Definition isSpace3 (a b c : ascii) : bool :=
  let x := byte a in let y := byte b in let z := byte c in
  ((N.eqb x 225 && N.eqb y 154 && N.eqb z 128)
   || (N.eqb x 226 && N.eqb y 128
       && (inRange 128 138 c || N.eqb z 168 || N.eqb z 169 || N.eqb z 175))
   || (N.eqb x 226 && N.eqb y 129 && N.eqb z 159)
   || (N.eqb x 227 && N.eqb y 128 && N.eqb z 128))%bool.

(** [TrimLeftFunc(s, unicode.IsSpace)]: drop white space runes from the
    front. *)
Fixpoint trimLeft (s : list ascii) : list ascii :=
  match s with
  | a :: r =>
    if isSpace1 a then trimLeft r
    else match r with
    | b :: r2 =>
      if isSpace2 a b then trimLeft r2
      else match r2 with
      | c :: r3 => if isSpace3 a b c then trimLeft r3 else s
      | [] => s
      end
    | [] => s
    end
  | [] => []
  end.

(** [TrimRightFunc(s, unicode.IsSpace)] on the reversed byte sequence:
    the last rune of the string is read from the bytes that end it. *)
Fixpoint trimRightRev (s : list ascii) : list ascii :=
  match s with
  | a :: r =>
    if isSpace1 a then trimRightRev r
    else match r with
    | b :: r2 =>
      if isSpace2 b a then trimRightRev r2
      else match r2 with
      | c :: r3 => if isSpace3 c b a then trimRightRev r3 else s
      | [] => s
      end
    | [] => s
    end
  | [] => []
  end.

(** [strings.TrimSpace]: all leading and trailing white space removed. *)
Definition TrimSpace (s : string) : string :=
  string_of_list_ascii
    (rev (trimRightRev (rev (trimLeft (list_ascii_of_string s))))).

Fixpoint HasPrefix (s prefix : string) : bool :=
  match prefix, s with
  | EmptyString, _ => true
  | String p pr, String c r => (Ascii.eqb p c && HasPrefix r pr)%bool
  | String _ _, EmptyString => false
  end.

(** The loop of [strings.Replace] with [n < 0].  [skip] counts the bytes
    of the current match (or, for an empty [old], of the current rune)
    still to be passed over. *)
Fixpoint replaceFrom (s old new : string) (skip : nat) : string :=
  match s with
  | EmptyString => EmptyString
  | String c r =>
    match skip with
    | S k =>
      match old with
      | EmptyString =>
        String c (match k with
                  | O => new ++ replaceFrom r old new
                                  (match r with
                                   | String c' r' => utf8.runeWidth c' r'
                                   | EmptyString => O
                                   end)
                  | S _ => replaceFrom r old new k
                  end)
      | String _ _ => replaceFrom r old new k
      end
    | O =>
      if HasPrefix s old
      then new ++ replaceFrom r old new (String.length old - 1)
      else String c (replaceFrom r old new O)
    end
  end.

(** [strings.ReplaceAll]: every non-overlapping instance of [old]
    replaced by [new]; an empty [old] matches before every rune and at
    the end of the string. *)
Definition ReplaceAll (s old new : string) : string :=
  match old with
  | EmptyString =>
    new ++ match s with
           | EmptyString => EmptyString
           | String c r => replaceFrom s old new (utf8.runeWidth c r)
           end
  | String _ _ => replaceFrom s old new O
  end.

End strings.


(** ** strconv *)

Module strconv.

Definition maxUint64 : Z := 2 ^ 64 - 1.

Definition syntaxError (fn str : string) : error := NumError fn str ErrSyntax.
Definition rangeError (fn str : string) : error := NumError fn str ErrRange.

(** [lower(c)]: [c | ('x' - 'X')]. *)
Definition lower (c : Z) : Z := Z.lor c 32.

(** The digit loop of [ParseUint] for base 10 and 64 bits.  [n] is the
    [uint64] accumulator; the [Z] expressions spell out its wrap-around,
    and [s0] is the whole argument, kept for the error.  The result is
    Go's pair of a value and an error, [None] for [nil]. *)
Fixpoint parseLoop (s0 s : string) (n : Z) : Z * option error :=
  let base := 10%Z in
  let cutoff := (maxUint64 / 10 + 1)%Z in
  let maxVal := maxUint64 in
  match s with
  | EmptyString => (n, None)
  | String ch r =>
    let c := Z.of_N (byte ch) in
    let digit :=
      if ((48 <=? c) && (c <=? 57))%Z%bool then Some (c - 48)%Z
      else if ((97 <=? lower c) && (lower c <=? 122))%Z%bool
           then Some (lower c - 97 + 10)%Z
           else None in
    match digit with
    | None => (0%Z, Some (syntaxError "ParseUint" s0))
    | Some d =>
      if (base <=? d)%Z then (0%Z, Some (syntaxError "ParseUint" s0))
      else if (cutoff <=? n)%Z then (maxVal, Some (rangeError "ParseUint" s0))
      else
        let n' := ((n * base) mod 2 ^ 64)%Z in
        let n1 := ((n' + d) mod 2 ^ 64)%Z in
        if ((n1 <? n') || (maxVal <? n1))%Z%bool
        then (maxVal, Some (rangeError "ParseUint" s0))
        else parseLoop s0 r n1
    end
  end.

(** [strconv.ParseUint(s, 10, 64)], the one way the package calls it. *)
Definition ParseUint (s : string) : Z * option error :=
  match s with
  | EmptyString => (0%Z, Some (syntaxError "ParseUint" s))
  | String _ _ => parseLoop s s 0
  end.

(** [strconv.Itoa], the text [%d] prints. *)
Definition Itoa (i : Z) : string := NilZero.string_of_int (Z.to_int i).

End strconv.

(** ** fmt *)

Module fmt.

(** An operand of [Sprintf]: a [string] or an [int]. *)
Inductive arg : Type :=
| S_ (s : string)
| D_ (i : Z).

(** [fmt.Sprintf] for the verbs the package uses, [%s] on a string and
    [%d] on an integer, and for [%%]; operands are consumed left to
    right.  Other directives do not occur in the package and are copied
    through. *)
Fixpoint Sprintf (format : string) (args : list arg) : string :=
  match format with
  | String "%" (String "s" r) =>
    match args with
    | S_ s :: args' => s ++ Sprintf r args'
    | _ => "%s" ++ Sprintf r args
    end
  | String "%" (String "d" r) =>
    match args with
    | D_ i :: args' => strconv.Itoa i ++ Sprintf r args'
    | _ => "%d" ++ Sprintf r args
    end
  | String "%" (String "%" r) => String "%" (Sprintf r args)
  | String c r => String c (Sprintf r args)
  | EmptyString => EmptyString
  end.

(** [fmt.Errorf] without [%w]: an [*errors.errorString] of the text. *)
Definition Errorf (format : string) (args : list arg) : error :=
  errors.New (Sprintf format args).

End fmt.

(** ** golang.org/x/net/html: the parse tree *)

Module html.

Inductive NodeType : Type :=
| ErrorNode
| TextNode
| DocumentNode
| ElementNode
| CommentNode
| DoctypeNode.

Record Attribute : Type := { Key : string; Val : string }.

(** [html.Node]: its [Type], [Data] (the tag name of an element, the
    text of a text node), [Attr], and the list of children that
    [FirstChild] and [NextSibling] chain. *)
#[warnings="-register-all"]
Inductive Node : Type :=
| mkNode (ty : NodeType) (data : string) (attr : list Attribute)
         (kids : list Node).

Definition Type_ (n : Node) : NodeType :=
  match n with mkNode ty _ _ _ => ty end.
Definition Data (n : Node) : string :=
  match n with mkNode _ data _ _ => data end.
Definition Attr (n : Node) : list Attribute :=
  match n with mkNode _ _ attr _ => attr end.
Definition children (n : Node) : list Node :=
  match n with mkNode _ _ _ kids => kids end.

Definition isElement (n : Node) : bool :=
  match Type_ n with ElementNode => true | _ => false end.

Definition isDocument (n : Node) : bool :=
  match Type_ n with DocumentNode => true | _ => false end.

(** A [*html.Node] is named by its position in the tree: the child
    indices on the way down from the root. *)
Definition NodeRef : Type := list nat.

Fixpoint deref (root : Node) (p : NodeRef) : option Node :=
  match p with
  | [] => Some root
  | i :: p' =>
    match nth_error (children root) i with
    | Some c => deref c p'
    | None => None
    end
  end.

Definition refEqb (p q : NodeRef) : bool :=
  if list_eq_dec Nat.eq_dec p q then true else false.

(** The nodes reached by following [Parent]: the proper prefixes. *)
Fixpoint ancestors (p : NodeRef) : list NodeRef :=
  match p with
  | [] => []
  | i :: p' => [] :: map (cons i) (ancestors p')
  end.

(** An outcome of [html.Parse] on a reader: the root (a [DocumentNode])
    or the reader's error.  The reader stands for the bytes it yields. *)
Record Reader : Type := { Parse : result Node }.

End html.

(** ** cascadia: the selectors of the package *)

Module cascadia.
Import html.

(** One test of a compound selector. *)
Inductive simple : Type :=
| typeSelector (tag : string)
| idSelector (id : string)
| classSelector (cls : string)
| firstChild
| lastChild.

(** A selector of the fragment the package writes: compound selectors
    joined by the descendant combinator, outermost first.  Selectors
    with other combinators, groups, attribute tests or other
    pseudo-classes are not modelled: [compile] gives [None] for them,
    and for the texts cascadia rejects. *)
Definition Selector : Type := list (list simple).

Definition isWS (c : ascii) : bool :=
  let b := byte c in
  (N.eqb b 32 || N.eqb b 9 || N.eqb b 10 || N.eqb b 13 || N.eqb b 12)%bool.

Definition pushTok (h : string) (t : list string) : list string :=
  match h with EmptyString => t | _ => h :: t end.

Fixpoint splitAux (s : string) : string * list string :=
  match s with
  | EmptyString => (EmptyString, [])
  | String c r =>
    let (h, t) := splitAux r in
    if isWS c then (EmptyString, pushTok h t) else (String c h, t)
  end.

(** The maximal runs of non-blank bytes. *)
Definition fields (s : string) : list string :=
  let (h, t) := splitAux s in pushTok h t.

Definition isNameChar (c : ascii) : bool :=
  (inRange 97 122 c || inRange 65 90 c || inRange 48 57 c
   || N.eqb (byte c) 45 || N.eqb (byte c) 95)%bool.

Fixpoint isName (s : string) : bool :=
  match s with
  | EmptyString => true
  | String c r => (isNameChar c && isName r)%bool
  end.

Definition isMark (c : ascii) : bool :=
  (N.eqb (byte c) 35 || N.eqb (byte c) 46 || N.eqb (byte c) 58)%bool.

(** A compound selector cut at its marks [#], [.] and [:]: the leading
    tag name (possibly empty) and the marked names after it. *)
Fixpoint segments (s : string) : string * list (ascii * string) :=
  match s with
  | EmptyString => (EmptyString, [])
  | String c r =>
    let (h, t) := segments r in
    if isMark c then (EmptyString, (c, h) :: t) else (String c h, t)
  end.

Definition toLowerASCII (s : string) : string :=
  string_of_list_ascii
    (map (fun c => if inRange 65 90 c then ascii_of_N (byte c + 32) else c)
         (list_ascii_of_string s)).

Definition parseMarked (m : ascii * string) : option simple :=
  let (c, name) := m in
  if (negb (isName name) || String.eqb name "")%bool then None
  else if N.eqb (byte c) 35 then Some (idSelector name)
  else if N.eqb (byte c) 46 then Some (classSelector name)
  else if String.eqb name "first-child" then Some firstChild
  else if String.eqb name "last-child" then Some lastChild
  else None.

Fixpoint sequence {A} (l : list (option A)) : option (list A) :=
  match l with
  | [] => Some []
  | Some a :: r =>
    match sequence r with Some r' => Some (a :: r') | None => None end
  | None :: _ => None
  end.

Definition parseCompound (s : string) : option (list simple) :=
  let (tag, marked) := segments s in
  if negb (isName tag) then None
  else match sequence (map parseMarked marked) with
  | None => None
  | Some ms =>
    match tag, ms with
    | EmptyString, [] => None
    | EmptyString, _ => Some ms
    | _, _ => Some (typeSelector (toLowerASCII tag) :: ms)
    end
  end.

Definition compile (sel : string) : option Selector :=
  match fields sel with
  | [] => None
  | parts => sequence (map parseCompound parts)
  end.

Definition attrIs (key val : string) (a : Attribute) : bool :=
  (String.eqb (Key a) key && String.eqb (Val a) val)%bool.

(** The position of [p] under its parent, when the parent is not the
    document: the children before it and those after it. *)
Definition siblings (root : Node) (p : NodeRef)
  : option (list Node * list Node) :=
  match p with
  | [] => None
  | _ :: _ =>
    match deref root (removelast p) with
    | Some parent =>
      if isDocument parent then None
      else Some (firstn (last p O) (children parent),
                 skipn (S (last p O)) (children parent))
    | None => None
    end
  end.

Definition matchSimple (root : Node) (p : NodeRef) (n : Node) (s : simple)
  : bool :=
  match s with
  | typeSelector tag => String.eqb (Data n) tag
  | idSelector id => existsb (attrIs "id" id) (Attr n)
  | classSelector cls =>
    existsb (fun a => String.eqb (Key a) "class"
                      && existsb (String.eqb cls) (fields (Val a)))%bool
            (Attr n)
  | firstChild =>
    match siblings root p with
    | Some (before, _) => negb (existsb isElement before)
    | None => false
    end
  | lastChild =>
    match siblings root p with
    | Some (_, after) => negb (existsb isElement after)
    | None => false
    end
  end.

(** Only an element matches a compound selector. *)
Definition matchCompound (root : Node) (c : list simple) (p : NodeRef)
  : bool :=
  match deref root p with
  | Some n => (isElement n && forallb (matchSimple root p n) c)%bool
  | None => false
  end.

(** The descendant combinator, on the chain read innermost first:
    [a b] matches a node that [b] matches and that has an ancestor
    [a] matches. *)
Fixpoint matchRev (root : Node) (rc : Selector) (p : NodeRef) : bool :=
  match rc with
  | [] => false
  | [c] => matchCompound root c p
  | c :: outer =>
    (matchCompound root c p
     && existsb (matchRev root outer) (ancestors p))%bool
  end.

Definition Match (root : Node) (sel : Selector) (p : NodeRef) : bool :=
  matchRev root (rev sel) p.

(** [MatchAll]: the matching nodes of the subtree at [p], whose node is
    [n], in document order. *)
Fixpoint matchAllInto (m : NodeRef -> bool) (n : Node) (p : NodeRef)
  : list NodeRef :=
  match n with
  | mkNode _ _ _ kids =>
    (if m p then [p] else []) ++
    (fix each (l : list Node) (i : nat) : list NodeRef :=
       match l with
       | [] => []
       | c :: l' => matchAllInto m c (p ++ [i]) ++ each l' (S i)
       end) kids O
  end.

End cascadia.

(** ** goquery *)

Module goquery.
Import html.

(** [goquery.Selection]: the matched nodes, in order, and the tree they
    belong to. *)
Record Selection : Type := { Nodes : list NodeRef; document : Node }.

(** [goquery.Document]: it embeds the selection that holds the root. *)
Record Document : Type := { rootNode : Node }.

Definition Selection_of (d : Document) : Selection :=
  {| Nodes := [[]]; document := rootNode d |}.

Definition NewDocumentFromReader (r : Reader) : result Document :=
  match Parse r with
  | Err e => Err e
  | Ok root => Ok {| rootNode := root |}
  end.

Definition appendWithoutDuplicates (target nodes : list NodeRef)
  : list NodeRef :=
  fold_left
    (fun acc n => if existsb (refEqb n) acc then acc else acc ++ [n])
    nodes target.

Definition mapNodes (nodes : list NodeRef) (f : NodeRef -> list NodeRef)
  : list NodeRef :=
  fold_left (fun acc n => appendWithoutDuplicates acc (f n)) nodes [].

(** The matches among the descendants of each node: every element child
    is searched with [MatchAll]. *)
Fixpoint matchChildren (m : NodeRef -> bool) (p : NodeRef)
         (kids : list Node) (i : nat) : list NodeRef :=
  match kids with
  | [] => []
  | c :: kids' =>
    (if isElement c then cascadia.matchAllInto m c (p ++ [i]) else [])
    ++ matchChildren m p kids' (S i)
  end.

Definition findWithMatcher (root : Node) (nodes : list NodeRef)
           (m : NodeRef -> bool) : list NodeRef :=
  mapNodes nodes
    (fun p =>
       match deref root p with
       | Some n => matchChildren m p (children n) O
       | None => []
       end).

(** A selector that does not compile matches nothing. *)
Definition compileMatcher (root : Node) (selector : string)
  : NodeRef -> bool :=
  match cascadia.compile selector with
  | Some sel => cascadia.Match root sel
  | None => fun _ => false
  end.

Definition Find (s : Selection) (selector : string) : Selection :=
  {| Nodes := findWithMatcher (document s) (Nodes s)
                (compileMatcher (document s) selector);
     document := document s |}.

(** The text nodes below (and at) a node, concatenated in order. *)
Fixpoint nodeText (n : Node) : string :=
  match n with
  | mkNode ty data _ kids =>
    String.append
      (match ty with TextNode => data | _ => EmptyString end)
      ((fix each (l : list Node) : string :=
          match l with
          | [] => EmptyString
          | c :: l' => String.append (nodeText c) (each l')
          end) kids)
  end.

(** [Text]: the combined text of every node of the selection. *)
Definition Text (s : Selection) : string :=
  String.concat EmptyString
    (map (fun p => match deref (document s) p with
                   | Some n => nodeText n
                   | None => EmptyString
                   end)
         (Nodes s)).

Definition Length (s : Selection) : nat := List.length (Nodes s).

Definition newSingleSelection (p : NodeRef) (root : Node) : Selection :=
  {| Nodes := [p]; document := root |}.

(** [Each]: the callback runs once per node, in order, with the index
    and a selection of that node alone.  A Go callback works by
    assigning to variables it captures; here it is a function on their
    state [St]. *)
Fixpoint eachFrom {St} (root : Node) (nodes : list NodeRef) (i : nat)
         (f : nat -> Selection -> St -> St) (st : St) : St :=
  match nodes with
  | [] => st
  | p :: nodes' =>
    eachFrom root nodes' (S i) f (f i (newSingleSelection p root) st)
  end.

Definition Each {St} (s : Selection) (f : nat -> Selection -> St -> St)
           (st : St) : St :=
  eachFrom (document s) (Nodes s) O f st.

Definition First (s : Selection) : Selection :=
  {| Nodes := firstn 1 (Nodes s); document := document s |}.

Definition Last (s : Selection) : Selection :=
  {| Nodes := skipn (List.length (Nodes s) - 1) (Nodes s);
     document := document s |}.

(** [Attr]: the value of the attribute on the first node, and whether
    it is there. *)
Definition Attr (s : Selection) (attrName : string) : string * bool :=
  match Nodes s with
  | [] => (EmptyString, false)
  | p :: _ =>
    match deref (document s) p with
    | Some n =>
      match filter (fun a => String.eqb (Key a) attrName) (html.Attr n) with
      | a :: _ => (Val a, true)
      | [] => (EmptyString, false)
      end
    | None => (EmptyString, false)
    end
  end.

End goquery.

(** ** net/http, as far as [siteInfo] looks at a response *)

Module http.
Record Response : Type := { StatusCode : Z; Body : html.Reader }.
Definition StatusOK : Z := 200.
End http.

(** * Package asip *)

Definition seGlobalRank : string := "span.globleRank span div strong".
Definition seLocalRank : string := "span.countryRank span div strong".
Definition seCountry : string := "span.countryRank span h4 a".
Definition seVisitors : string := "table#demographics_div_country_table tbody".
Definition seKeywords : string := "table#keywords_top_keywords_table tbody".
Definition seUpstreams : string := "table#keywords_upstream_site_table tbody".
Definition seLinks : string := "table#linksin_table tbody".
Definition seLinkingTotal : string :=
  "section#linksin-panel-content div span div span.font-4.box1-r".
Definition seRelated : string := "table#audience_overlap_table tbody".
Definition seCategories : string := "table#category_link_table tbody".
Definition seSubdomains : string := "table#subdomain_table tbody".
Definition seTitle : string :=
  "div.row-fluid.siteinfo-site-summary span div p".
Definition seDescription : string :=
  "section#contact-panel-content div.row-fluid span.span8 p.color-s3".
Definition seNoData : string := "section#no-enough-data".
Definition asiLocation : string := "https://www.alexa.com/siteinfo/%s".

(** [ErrNoEnoughData] is returned when a domain is not in top 1M. *)
Definition ErrNoEnoughData : string := "no enough data".

(** Go's [uint], on a 64-bit target: the conversion [uint(x)] of a
    [uint64] keeps the low [uintSize] bits. *)
Definition uintSize : Z := 64.
Definition uint (x : Z) : Z := x mod 2 ^ uintSize.

(** The structs.  A field name is prefixed by its struct's where two
    structs share it.  A slice is a list; the nil slice is [[]]. *)
Record Link : Type := { Link_Site : string; Link_Page : string }.

Record Visitor : Type := {
  Visitor_Country : string;
  Visitor_Percent : string;
  Visitor_LocalRank : Z
}.

Record Keyword : Type := { Keyword_Word : string; Keyword_Percent : string }.

Record Upstream : Type := { Upstream_Site : string; Upstream_Percent : string }.

Record Subdomain : Type := {
  Subdomain_Domain : string;
  Subdomain_Percent : string
}.

Record Site : Type := {
  Title : string;
  Description : string;
  MainCountry : string;
  GlobalRank : Z;
  LocalRank : Z;
  LinkingTotal : Z;
  Visitors : list Visitor;
  Keywords : list Keyword;
  Upstreams : list Upstream;
  Related : list string;
  Subdomains : list Subdomain;
  Categories : list string;
  LinksFrom : list Link
}.

(** [var s Site]: every field at its zero value. *)
Definition zeroSite : Site :=
  {| Title := ""; Description := ""; MainCountry := "";
     GlobalRank := 0; LocalRank := 0; LinkingTotal := 0;
     Visitors := []; Keywords := []; Upstreams := []; Related := [];
     Subdomains := []; Categories := []; LinksFrom := [] |}.

(** The assignments [s.F = v]. *)
Definition set_Title (s : Site) (v : string) : Site :=
  {| Title := v; Description := Description s; MainCountry := MainCountry s;
     GlobalRank := GlobalRank s; LocalRank := LocalRank s;
     LinkingTotal := LinkingTotal s; Visitors := Visitors s;
     Keywords := Keywords s; Upstreams := Upstreams s; Related := Related s;
     Subdomains := Subdomains s; Categories := Categories s;
     LinksFrom := LinksFrom s |}.

Definition set_Description (s : Site) (v : string) : Site :=
  {| Title := Title s; Description := v; MainCountry := MainCountry s;
     GlobalRank := GlobalRank s; LocalRank := LocalRank s;
     LinkingTotal := LinkingTotal s; Visitors := Visitors s;
     Keywords := Keywords s; Upstreams := Upstreams s; Related := Related s;
     Subdomains := Subdomains s; Categories := Categories s;
     LinksFrom := LinksFrom s |}.

Definition set_MainCountry (s : Site) (v : string) : Site :=
  {| Title := Title s; Description := Description s; MainCountry := v;
     GlobalRank := GlobalRank s; LocalRank := LocalRank s;
     LinkingTotal := LinkingTotal s; Visitors := Visitors s;
     Keywords := Keywords s; Upstreams := Upstreams s; Related := Related s;
     Subdomains := Subdomains s; Categories := Categories s;
     LinksFrom := LinksFrom s |}.

Definition set_GlobalRank (s : Site) (v : Z) : Site :=
  {| Title := Title s; Description := Description s;
     MainCountry := MainCountry s;
     GlobalRank := v; LocalRank := LocalRank s;
     LinkingTotal := LinkingTotal s; Visitors := Visitors s;
     Keywords := Keywords s; Upstreams := Upstreams s; Related := Related s;
     Subdomains := Subdomains s; Categories := Categories s;
     LinksFrom := LinksFrom s |}.

Definition set_LocalRank (s : Site) (v : Z) : Site :=
  {| Title := Title s; Description := Description s;
     MainCountry := MainCountry s;
     GlobalRank := GlobalRank s; LocalRank := v;
     LinkingTotal := LinkingTotal s; Visitors := Visitors s;
     Keywords := Keywords s; Upstreams := Upstreams s; Related := Related s;
     Subdomains := Subdomains s; Categories := Categories s;
     LinksFrom := LinksFrom s |}.

Definition set_LinkingTotal (s : Site) (v : Z) : Site :=
  {| Title := Title s; Description := Description s;
     MainCountry := MainCountry s;
     GlobalRank := GlobalRank s; LocalRank := LocalRank s;
     LinkingTotal := v; Visitors := Visitors s;
     Keywords := Keywords s; Upstreams := Upstreams s; Related := Related s;
     Subdomains := Subdomains s; Categories := Categories s;
     LinksFrom := LinksFrom s |}.

Definition set_Visitors (s : Site) (v : list Visitor) : Site :=
  {| Title := Title s; Description := Description s;
     MainCountry := MainCountry s;
     GlobalRank := GlobalRank s; LocalRank := LocalRank s;
     LinkingTotal := LinkingTotal s; Visitors := v;
     Keywords := Keywords s; Upstreams := Upstreams s; Related := Related s;
     Subdomains := Subdomains s; Categories := Categories s;
     LinksFrom := LinksFrom s |}.

Definition set_Keywords (s : Site) (v : list Keyword) : Site :=
  {| Title := Title s; Description := Description s;
     MainCountry := MainCountry s;
     GlobalRank := GlobalRank s; LocalRank := LocalRank s;
     LinkingTotal := LinkingTotal s; Visitors := Visitors s;
     Keywords := v; Upstreams := Upstreams s; Related := Related s;
     Subdomains := Subdomains s; Categories := Categories s;
     LinksFrom := LinksFrom s |}.

Definition set_Upstreams (s : Site) (v : list Upstream) : Site :=
  {| Title := Title s; Description := Description s;
     MainCountry := MainCountry s;
     GlobalRank := GlobalRank s; LocalRank := LocalRank s;
     LinkingTotal := LinkingTotal s; Visitors := Visitors s;
     Keywords := Keywords s; Upstreams := v; Related := Related s;
     Subdomains := Subdomains s; Categories := Categories s;
     LinksFrom := LinksFrom s |}.

Definition set_Related (s : Site) (v : list string) : Site :=
  {| Title := Title s; Description := Description s;
     MainCountry := MainCountry s;
     GlobalRank := GlobalRank s; LocalRank := LocalRank s;
     LinkingTotal := LinkingTotal s; Visitors := Visitors s;
     Keywords := Keywords s; Upstreams := Upstreams s; Related := v;
     Subdomains := Subdomains s; Categories := Categories s;
     LinksFrom := LinksFrom s |}.

Definition set_Subdomains (s : Site) (v : list Subdomain) : Site :=
  {| Title := Title s; Description := Description s;
     MainCountry := MainCountry s;
     GlobalRank := GlobalRank s; LocalRank := LocalRank s;
     LinkingTotal := LinkingTotal s; Visitors := Visitors s;
     Keywords := Keywords s; Upstreams := Upstreams s; Related := Related s;
     Subdomains := v; Categories := Categories s;
     LinksFrom := LinksFrom s |}.

Definition set_Categories (s : Site) (v : list string) : Site :=
  {| Title := Title s; Description := Description s;
     MainCountry := MainCountry s;
     GlobalRank := GlobalRank s; LocalRank := LocalRank s;
     LinkingTotal := LinkingTotal s; Visitors := Visitors s;
     Keywords := Keywords s; Upstreams := Upstreams s; Related := Related s;
     Subdomains := Subdomains s; Categories := v;
     LinksFrom := LinksFrom s |}.

Definition set_LinksFrom (s : Site) (v : list Link) : Site :=
  {| Title := Title s; Description := Description s;
     MainCountry := MainCountry s;
     GlobalRank := GlobalRank s; LocalRank := LocalRank s;
     LinkingTotal := LinkingTotal s; Visitors := Visitors s;
     Keywords := Keywords s; Upstreams := Upstreams s; Related := Related s;
     Subdomains := Subdomains s; Categories := Categories s;
     LinksFrom := v |}.

(** The interface [findable]: what [getUint] and [getString] ask of a
    document or of a selection. *)
Class findable (A : Type) : Type := {
  Find : A -> string -> goquery.Selection;
  Text : A -> string
}.

#[export] Instance findable_Selection : findable goquery.Selection :=
  {| Find := goquery.Find; Text := goquery.Text |}.

#[export] Instance findable_Document : findable goquery.Document :=
  {| Find := fun d => goquery.Find (goquery.Selection_of d);
     Text := fun d => goquery.Text (goquery.Selection_of d) |}.

(** A function that returns [(T, error)] returns a pair; [None] is the
    [nil] error. *)

Definition getUint {A : Type} `{findable A} (d : A) (selector kind : string)
  : Z * option error :=
  let s :=
    if negb (String.eqb selector "")
    then strings.TrimSpace (goquery.Text (Find d selector))
    else strings.TrimSpace (Text d) in
  if String.eqb s "" then (0%Z, Some (fmt.Errorf "no %s found" [fmt.S_ kind]))
  else
    (* remove commas from string like 1,111,111 *)
    let s := strings.ReplaceAll s "," "" in
    match strconv.ParseUint s with
    | (_, Some err) => (0%Z, Some err)
    | (value, None) => (value, None)
    end.

Definition getString {A : Type} `{findable A} (d : A)
           (selector kind : string) : string * option error :=
  let s :=
    if negb (String.eqb selector "")
    then strings.TrimSpace (goquery.Text (Find d selector))
    else strings.TrimSpace (Text d) in
  if String.eqb s "" then ("", Some (fmt.Errorf "no %s found" [fmt.S_ kind]))
  else (s, None).

Definition globalRank (d : goquery.Document) : Z * option error :=
  getUint d seGlobalRank "global rank".

Definition localRank (d : goquery.Document) : Z * option error :=
  getUint d seLocalRank "local rank".

Definition country (d : goquery.Document) : string * option error :=
  getString d seCountry "country".

Definition linkingTotal (d : goquery.Document) : Z * option error :=
  getUint d seLinkingTotal "linking total".

Definition title (d : goquery.Document) : string * option error :=
  getString d seTitle "site title".

Definition description (d : goquery.Document) : string * option error :=
  getString d seDescription "site description".

Definition noEnoughData (d : goquery.Document) : bool :=
  Nat.ltb 0 (goquery.Length (Find d seNoData)).

(** In the tabular extractors the callback of [Each] appends to a slice
    it captures; the slice is the state threaded through [goquery.Each].
    The other captured variables are assigned anew in every call before
    they are read.  An assignment [x, _ = f()] keeps the first result of
    [f] and drops the second: [fst]. *)

Definition visitors (d : goquery.Document) : list Visitor * option error :=
  let tbody := Find d seVisitors in
  if Nat.eqb (goquery.Length tbody) 0
  then ([], Some (errors.New "no visitors found"))
  else
    let v :=
      goquery.Each (Find tbody "tr")
        (fun i tr v =>
           let country := strings.TrimSpace (goquery.Text (Find tr "td a")) in
           let percent :=
             strings.TrimSpace
               (goquery.Text (goquery.First (Find tr "td span"))) in
           let countryRank :=
             fst (getUint (goquery.Last (Find tr "td span")) ""
                    (fmt.Sprintf "%d country rank" [fmt.D_ (Z.of_nat i)])) in
           v ++ [{| Visitor_Country := country;
                    Visitor_Percent := percent;
                    Visitor_LocalRank := uint countryRank |}])
        [] in
    (v, None).

Definition keywords (d : goquery.Document) : list Keyword * option error :=
  let tbody := Find d seKeywords in
  if Nat.eqb (goquery.Length tbody) 0
  then ([], Some (errors.New "no keywords found"))
  else
    let ks :=
      goquery.Each (Find tbody "tr")
        (fun _ tr ks =>
           let key :=
             strings.TrimSpace
               (goquery.Text (Find tr "td:first-child span:last-child")) in
           let percentage :=
             strings.TrimSpace (goquery.Text (Find tr "td:last-child span")) in
           ks ++ [{| Keyword_Word := key; Keyword_Percent := percentage |}])
        [] in
    (ks, None).

Definition upstreams (d : goquery.Document) : list Upstream * option error :=
  let tbody := Find d seUpstreams in
  if Nat.eqb (goquery.Length tbody) 0
  then ([], Some (errors.New "no upstream servers found"))
  else
    let us :=
      goquery.Each (Find tbody "tr")
        (fun _ tr us =>
           let site := strings.TrimSpace (goquery.Text (Find tr "td a")) in
           let percent :=
             strings.TrimSpace (goquery.Text (Find tr "td:last-child span")) in
           us ++ [{| Upstream_Site := site; Upstream_Percent := percent |}])
        [] in
    (us, None).

Definition linksFrom (d : goquery.Document) : list Link * option error :=
  let tbody := Find d seLinks in
  if Nat.eqb (goquery.Length tbody) 0
  then ([], Some (errors.New "no linking sites found"))
  else
    let ls :=
      goquery.Each (Find tbody "tr")
        (fun _ tr ls =>
           let site :=
             strings.TrimSpace (goquery.Text (Find tr "span.word-wrap a")) in
           let page := fst (goquery.Attr (Find tr "a.word-wrap") "href") in
           ls ++ [{| Link_Site := site; Link_Page := page |}])
        [] in
    (ls, None).

Definition related (d : goquery.Document) : list string * option error :=
  let tbody := Find d seRelated in
  if Nat.eqb (goquery.Length tbody) 0
  then ([], Some (errors.New "no related sites found"))
  else
    let rs :=
      goquery.Each (Find tbody "tr")
        (fun _ tr rs => rs ++ [goquery.Text (Find tr "a")])
        [] in
    (rs, None).

Definition categories (d : goquery.Document) : list string * option error :=
  let tbody := Find d seCategories in
  if Nat.eqb (goquery.Length tbody) 0
  then ([], Some (errors.New "no categories found"))
  else
    let cts :=
      goquery.Each (Find tbody "a")
        (fun _ a cts => cts ++ [goquery.Text a])
        [] in
    (cts, None).

Definition subdomains (d : goquery.Document)
  : list Subdomain * option error :=
  let tbody := Find d seSubdomains in
  if Nat.eqb (goquery.Length tbody) 0
  then ([], Some (errors.New "no subdomains found"))
  else
    let ss :=
      goquery.Each (Find tbody "tr")
        (fun _ tr ss =>
           let domain := goquery.Text (Find tr "td:first-child span") in
           let percent := goquery.Text (Find tr "td:last-child span") in
           ss ++ [{| Subdomain_Domain := domain;
                     Subdomain_Percent := percent |}])
        [] in
    (ss, None).

(** ** The pipeline *)

(** The package functions [parse] calls on the document.  The list a run
    of [parse] returns beside its result names them in the order they
    were called: it is a record of the run, not data of the program. *)
Inductive Call : Type :=
| call_noEnoughData
| call_globalRank
| call_localRank
| call_country
| call_linkingTotal
| call_title
| call_description
| call_visitors
| call_keywords
| call_upstreams
| call_linksFrom
| call_related
| call_categories
| call_subdomains
| call_parse.

Definition Traced (A : Type) : Type := A * list Call.

Definition ret {A : Type} (a : A) : Traced A := (a, []).

(** The call [c] is made, its value is [r], and the run goes on as [k]. *)
Definition call {A B : Type} (c : Call) (r : A) (k : A -> Traced B)
  : Traced B :=
  let (b, t) := k r in (b, c :: t).

Definition value {A : Type} (m : Traced A) : A := fst m.
Definition calls {A : Type} (m : Traced A) : list Call := snd m.

(** [try! [c] x , err <- f d ; onerr h ; k] reads
    [x, err := f(d); if err != nil { return h }; k], the call being [c]. *)
Notation "'try!' [ c ] x , er <- e ; 'onerr' h ; k" :=
  (call c e (fun r => match r with
                      | (x, Some er) => ret h
                      | (x, None) => k
                      end))
  (at level 10, c at level 0, x name, er name, e at level 100,
   h at level 100, k at level 200).

Definition parse (body : html.Reader) : Traced (option Site * option error) :=
  match goquery.NewDocumentFromReader body with
  | Err err => ret (None, Some err)
  | Ok d =>
    call call_noEnoughData (noEnoughData d) (fun nodata =>
    if nodata then ret (None, Some (errors.New ErrNoEnoughData))
    else
      let s := zeroSite in
      try! [call_globalRank] gr, err <- globalRank d; onerr (None, Some err);
      let s := set_GlobalRank s (uint gr) in
      try! [call_localRank] lr, err <- localRank d; onerr (Some s, Some err);
      let s := set_LocalRank s (uint lr) in
      try! [call_country] country, err <- country d; onerr (Some s, Some err);
      let s := set_MainCountry s country in
      try! [call_linkingTotal] lt, err <- linkingTotal d;
        onerr (Some s, Some err);
      let s := set_LinkingTotal s (uint lt) in
      try! [call_title] tt, err <- title d; onerr (Some s, Some err);
      let s := set_Title s tt in
      try! [call_description] dsc, err <- description d;
        onerr (Some s, Some err);
      let s := set_Description s dsc in
      try! [call_visitors] vst, err <- visitors d; onerr (Some s, Some err);
      let s := set_Visitors s vst in
      try! [call_keywords] kws, err <- keywords d; onerr (Some s, Some err);
      let s := set_Keywords s kws in
      try! [call_upstreams] ups, err <- upstreams d; onerr (Some s, Some err);
      let s := set_Upstreams s ups in
      try! [call_linksFrom] ls, err <- linksFrom d; onerr (Some s, Some err);
      let s := set_LinksFrom s ls in
      try! [call_related] rs, err <- related d; onerr (Some s, Some err);
      let s := set_Related s rs in
      try! [call_categories] cts, err <- categories d;
        onerr (Some s, Some err);
      let s := set_Categories s cts in
      try! [call_subdomains] ss, err <- subdomains d; onerr (Some s, Some err);
      let s := set_Subdomains s ss in
      ret (Some s, None))
  end.

(** [getFunc]: the transport, a URL to a response or an error. *)
Definition getFunc : Type := string -> result http.Response.

(** [defer resp.Body.Close()] has no effect on what is returned. *)
Definition siteInfo (domain : string) (f : getFunc)
  : Traced (option Site * option error) :=
  match f domain with
  | Err err => ret (None, Some err)
  | Ok resp =>
    if negb (Z.eqb (http.StatusCode resp) http.StatusOK)
    then ret (None,
              Some (fmt.Errorf "status code: %d, no data for %s?"
                               [fmt.D_ (http.StatusCode resp); fmt.S_ domain]))
    else call call_parse (parse (http.Body resp))
              (fun r => (value r, calls r))
  end.

(** [Conf] is a asip configuration: the client, seen through its [Get]. *)
Record Conf : Type := { client_Get : getFunc }.

(** [SiteInfo] parses webpage of Alexa Website Info; [get] stands for
    [http.Get]. *)
Definition SiteInfo (get : getFunc) (domain : string)
  : Traced (option Site * option error) :=
  siteInfo (fmt.Sprintf asiLocation [fmt.S_ domain]) get.

Definition Conf_SiteInfo (c : Conf) (domain : string)
  : Traced (option Site * option error) :=
  siteInfo (fmt.Sprintf asiLocation [fmt.S_ domain]) (client_Get c).

(** [NewWithClient] bootstraps configuration with a customized client. *)
Definition NewWithClient (c : getFunc) : Conf := {| client_Get := c |}.

(** * Package main: the command that prints the scalar fields *)

Module main.

(** Here [getUint] and [getString] take the document and always search
    it with the selector. *)
Definition getUint (d : goquery.Document) (selector kind : string)
  : Z * option error :=
  let s := strings.TrimSpace (goquery.Text (Find d selector)) in
  if String.eqb s "" then (0%Z, Some (fmt.Errorf "no %s found" [fmt.S_ kind]))
  else
    (* remove commas from string like 1,111,111 *)
    let s := strings.ReplaceAll s "," "" in
    match strconv.ParseUint s with
    | (_, Some err) => (0%Z, Some err)
    | (value, None) => (value, None)
    end.

Definition getString (d : goquery.Document) (selector kind : string)
  : string * option error :=
  let s := strings.TrimSpace (goquery.Text (Find d selector)) in
  if String.eqb s "" then ("", Some (fmt.Errorf "no %s found" [fmt.S_ kind]))
  else (s, None).

Definition globalRank (d : goquery.Document) : Z * option error :=
  getUint d seGlobalRank "global rank".

Definition localRank (d : goquery.Document) : Z * option error :=
  getUint d seLocalRank "local rank".

Definition country (d : goquery.Document) : string * option error :=
  getString d seCountry "country".

Definition linkingTotal (d : goquery.Document) : Z * option error :=
  getUint d seLinkingTotal "linking total".

Definition title (d : goquery.Document) : string * option error :=
  getString d seTitle "site title".

Definition description (d : goquery.Document) : string * option error :=
  getString d seDescription "site description".

(** What a run of [main] leaves behind: the values it gave to
    [log.Println], as the text [Println] makes of them (without the time
    stamp and the line end the logger adds), and the error it gave to
    [log.Fatal], if it ended that way. *)
Record Run : Type := { logged : list string; fatal : option error }.

Definition Fatal (out : list string) (err : error) : Run :=
  {| logged := out; fatal := Some err |}.

(** [main].  [opened] is what [os.Open("testdata/body.html")] gives: the
    file as a reader, or the error. *)
Definition main (opened : result html.Reader) : Run :=
  match opened with
  | Err err => Fatal [] err
  | Ok f =>
    match goquery.NewDocumentFromReader f with
    | Err err => Fatal [] err
    | Ok d =>
      let out := [] in
      match globalRank d with
      | (_, Some err) => Fatal out err
      | (gr, None) =>
        let out := out ++ [strconv.Itoa gr] in
        match localRank d with
        | (_, Some err) => Fatal out err
        | (lr, None) =>
          let out := out ++ [strconv.Itoa lr] in
          match country d with
          | (_, Some err) => Fatal out err
          | (country, None) =>
            let out := out ++ [country] in
            match linkingTotal d with
            | (_, Some err) => Fatal out err
            | (lt, None) =>
              let out := out ++ [strconv.Itoa lt] in
              match title d with
              | (_, Some err) => Fatal out err
              | (tt', None) =>
                let out := out ++ [tt'] in
                match description d with
                | (_, Some err) => Fatal out err
                | (dsc, None) =>
                  {| logged := out ++ [dsc]; fatal := None |}
                end
              end
            end
          end
        end
      end
    end
  end.

End main.

(** ** The pipeline as the specification tells it *)

(** The field extractors in the order of the state machine. *)
Definition pipeline : list Call :=
  [call_globalRank; call_localRank; call_country; call_linkingTotal;
   call_title; call_description; call_visitors; call_keywords;
   call_upstreams; call_linksFrom; call_related; call_categories;
   call_subdomains].

(** The error the extractor behind a call returns on a document. *)
Definition stageErr (c : Call) (d : goquery.Document) : option error :=
  match c with
  | call_globalRank => snd (globalRank d)
  | call_localRank => snd (localRank d)
  | call_country => snd (country d)
  | call_linkingTotal => snd (linkingTotal d)
  | call_title => snd (title d)
  | call_description => snd (description d)
  | call_visitors => snd (visitors d)
  | call_keywords => snd (keywords d)
  | call_upstreams => snd (upstreams d)
  | call_linksFrom => snd (linksFrom d)
  | call_related => snd (related d)
  | call_categories => snd (categories d)
  | call_subdomains => snd (subdomains d)
  | call_noEnoughData | call_parse => None
  end.

(** The state machine: each stage runs, and the next one only when it
    succeeded. *)
Fixpoint runStages (d : goquery.Document) (l : list Call) : list Call :=
  match l with
  | [] => []
  | c :: l' =>
    c :: match stageErr c d with
         | Some _ => []
         | None => runStages d l'
         end
  end.

(** The first stage of [l] that fails on [d], with its error. *)
Fixpoint firstFailure (d : goquery.Document) (l : list Call)
  : option (Call * error) :=
  match l with
  | [] => None
  | c :: l' =>
    match stageErr c d with
    | Some e => Some (c, e)
    | None => firstFailure d l'
    end
  end.

(** The place of a stage in the pipeline. *)
Definition position (c : Call) : nat :=
  match c with
  | call_globalRank => 0
  | call_localRank => 1
  | call_country => 2
  | call_linkingTotal => 3
  | call_title => 4
  | call_description => 5
  | call_visitors => 6
  | call_keywords => 7
  | call_upstreams => 8
  | call_linksFrom => 9
  | call_related => 10
  | call_categories => 11
  | call_subdomains => 12
  | call_noEnoughData | call_parse => 13
  end.

(** The field of a stage holds what its extractor returned on [d]. *)
Definition fieldHolds (c : Call) (d : goquery.Document) (s : Site) : Prop :=
  match c with
  | call_globalRank => GlobalRank s = uint (fst (globalRank d))
  | call_localRank => LocalRank s = uint (fst (localRank d))
  | call_country => MainCountry s = fst (country d)
  | call_linkingTotal => LinkingTotal s = uint (fst (linkingTotal d))
  | call_title => Title s = fst (title d)
  | call_description => Description s = fst (description d)
  | call_visitors => Visitors s = fst (visitors d)
  | call_keywords => Keywords s = fst (keywords d)
  | call_upstreams => Upstreams s = fst (upstreams d)
  | call_linksFrom => LinksFrom s = fst (linksFrom d)
  | call_related => Related s = fst (related d)
  | call_categories => Categories s = fst (categories d)
  | call_subdomains => Subdomains s = fst (subdomains d)
  | call_noEnoughData | call_parse => True
  end.

(** The field of a stage is in its zero state. *)
Definition fieldZero (c : Call) (s : Site) : Prop :=
  match c with
  | call_globalRank => GlobalRank s = 0%Z
  | call_localRank => LocalRank s = 0%Z
  | call_country => MainCountry s = ""
  | call_linkingTotal => LinkingTotal s = 0%Z
  | call_title => Title s = ""
  | call_description => Description s = ""
  | call_visitors => Visitors s = []
  | call_keywords => Keywords s = []
  | call_upstreams => Upstreams s = []
  | call_linksFrom => LinksFrom s = []
  | call_related => Related s = []
  | call_categories => Categories s = []
  | call_subdomains => Subdomains s = []
  | call_noEnoughData | call_parse => True
  end.

(** The text a scalar extractor works on: the trimmed text of the nodes
    the selector finds, or of [d] itself for the empty selector. *)
Definition fieldText {A : Type} `{findable A} (d : A) (selector : string)
  : string :=
  strings.TrimSpace
    (if String.eqb selector "" then Text d
     else goquery.Text (Find d selector)).

(** The rows of a selection as [Each] hands them to its callback: the
    index and the selection of the one node. *)
Definition rows (s : goquery.Selection) : list (nat * goquery.Selection) :=
  combine (seq 0 (goquery.Length s))
          (map (fun p => goquery.newSingleSelection p (goquery.document s))
               (goquery.Nodes s)).

(** The value of a string of decimal digits, [None] for the empty string
    and for a string with another byte in it. *)
Fixpoint digitsValue (s : string) (acc : Z) : option Z :=
  match s with
  | EmptyString => Some acc
  | String c r =>
    if inRange 48 57 c
    then digitsValue r (10 * acc + (Z.of_N (byte c) - 48))%Z
    else None
  end.

Definition decimalValue (s : string) : option Z :=
  match s with
  | EmptyString => None
  | String _ _ => digitsValue s 0
  end.

(** The text of the error a stage reports when its field is missing. *)
Definition stageMsg (c : Call) : string :=
  match c with
  | call_globalRank => "no global rank found"
  | call_localRank => "no local rank found"
  | call_country => "no country found"
  | call_linkingTotal => "no linking total found"
  | call_title => "no site title found"
  | call_description => "no site description found"
  | call_visitors => "no visitors found"
  | call_keywords => "no keywords found"
  | call_upstreams => "no upstream servers found"
  | call_linksFrom => "no linking sites found"
  | call_related => "no related sites found"
  | call_categories => "no categories found"
  | call_subdomains => "no subdomains found"
  | call_noEnoughData | call_parse => ""
  end.

(** The stages that parse a number. *)
Definition numeric (c : Call) : bool :=
  match c with
  | call_globalRank | call_localRank | call_linkingTotal => true
  | _ => false
  end.

(** The tabular fields, the selector of the row container of each, and
    the selector of what the extractor iterates inside it. *)
Definition tabular : list Call :=
  [call_visitors; call_keywords; call_upstreams; call_linksFrom;
   call_related; call_categories; call_subdomains].

Definition container (c : Call) : string :=
  match c with
  | call_visitors => seVisitors
  | call_keywords => seKeywords
  | call_upstreams => seUpstreams
  | call_linksFrom => seLinks
  | call_related => seRelated
  | call_categories => seCategories
  | call_subdomains => seSubdomains
  | _ => ""
  end.

Definition rowSelector (c : Call) : string :=
  match c with
  | call_categories => "a"
  | _ => "tr"
  end.

(** What a tabular stage iterates on a document. *)
Definition stageRows (c : Call) (d : goquery.Document)
  : list (nat * goquery.Selection) :=
  rows (Find (Find d (container c)) (rowSelector c)).

(** The number of sub-records a tabular stage returns. *)
Definition stageCount (c : Call) (d : goquery.Document) : nat :=
  match c with
  | call_visitors => List.length (fst (visitors d))
  | call_keywords => List.length (fst (keywords d))
  | call_upstreams => List.length (fst (upstreams d))
  | call_linksFrom => List.length (fst (linksFrom d))
  | call_related => List.length (fst (related d))
  | call_categories => List.length (fst (categories d))
  | call_subdomains => List.length (fst (subdomains d))
  | _ => 0
  end.

(** The trimmed text of a cell of a row. *)
Definition cellText (tr : goquery.Selection) (selector : string) : string :=
  strings.TrimSpace (goquery.Text (Find tr selector)).

(** The sub-record of a row, field by field as section 4.3 maps the
    columns. *)
Definition visitorRow (i : nat) (tr : goquery.Selection) : Visitor :=
  {| Visitor_Country := cellText tr "td a";
     Visitor_Percent :=
       strings.TrimSpace (goquery.Text (goquery.First (Find tr "td span")));
     Visitor_LocalRank :=
       uint (fst (getUint (goquery.Last (Find tr "td span")) ""
                          (fmt.Sprintf "%d country rank"
                                       [fmt.D_ (Z.of_nat i)]))) |}.

Definition keywordRow (tr : goquery.Selection) : Keyword :=
  {| Keyword_Word := cellText tr "td:first-child span:last-child";
     Keyword_Percent := cellText tr "td:last-child span" |}.

Definition upstreamRow (tr : goquery.Selection) : Upstream :=
  {| Upstream_Site := cellText tr "td a";
     Upstream_Percent := cellText tr "td:last-child span" |}.

Definition linkRow (tr : goquery.Selection) : Link :=
  {| Link_Site := cellText tr "span.word-wrap a";
     Link_Page := fst (goquery.Attr (Find tr "a.word-wrap") "href") |}.

Definition subdomainRow (tr : goquery.Selection) : Subdomain :=
  {| Subdomain_Domain := goquery.Text (Find tr "td:first-child span");
     Subdomain_Percent := goquery.Text (Find tr "td:last-child span") |}.

(** A text with its commas removed. *)
Fixpoint stripCommas (s : string) : string :=
  match s with
  | EmptyString => EmptyString
  | String c r =>
    if Ascii.eqb c "," then stripCommas r else String c (stripCommas r)
  end.

(** Document order on the nodes of a tree: a node comes before the nodes
    below it, and the nodes below a child come before those below a
    later child. *)
Fixpoint docLt (p q : html.NodeRef) : Prop :=
  match p, q with
  | [], [] => False
  | [], _ :: _ => True
  | _ :: _, [] => False
  | i :: p', j :: q' => i < j \/ (i = j /\ docLt p' q')
  end.

(** A tree as [html.Parse] builds it: below the root, only elements have
    children. *)
Fixpoint wellFormed (n : html.Node) : bool :=
  match n with
  | html.mkNode _ _ _ kids =>
    (fix all (l : list html.Node) : bool :=
       match l with
       | [] => true
       | c :: l' =>
         ((html.isElement c
           || match html.children c with [] => true | _ :: _ => false end)
          && wellFormed c && all l')%bool
       end) kids
  end.

(** What [Find] collects below the node [p] of the tree [root] with the
    matcher [m]: the contribution of [p] in [findWithMatcher]. *)
Definition foundBelow (root : html.Node) (m : html.NodeRef -> bool)
           (p : html.NodeRef) : list html.NodeRef :=
  match html.deref root p with
  | Some n => goquery.matchChildren m p (html.children n) 0
  | None => []
  end.

(** A byte sequence begins with the encoding of a white space rune. *)
Definition leadingSpace (l : list ascii) : bool :=
  match l with
  | a :: r =>
    (strings.isSpace1 a
     || match r with
        | b :: r2 =>
          strings.isSpace2 a b
          || match r2 with
             | c :: _ => strings.isSpace3 a b c
             | [] => false
             end
        | [] => false
        end)%bool
  | [] => false
  end.

(** A byte sequence, given last byte first, ends with the encoding of a
    white space rune. *)
Definition trailingSpaceRev (l : list ascii) : bool :=
  match l with
  | a :: r =>
    (strings.isSpace1 a
     || match r with
        | b :: r2 =>
          strings.isSpace2 b a
          || match r2 with
             | c :: _ => strings.isSpace3 c b a
             | [] => false
             end
        | [] => false
        end)%bool
  | [] => false
  end.

Definition startsWithSpace (s : string) : bool :=
  leadingSpace (list_ascii_of_string s).

Definition endsWithSpace (s : string) : bool :=
  trailingSpaceRev (rev (list_ascii_of_string s)).

(** The number a text stands for once its commas are removed, as
    [getUint] returns it: 0 when what is left is not a string of decimal
    digits or is too large for a [uint64]. *)
Definition numberOf (text : string) : Z :=
  match decimalValue (stripCommas text) with
  | Some n => if (n <=? strconv.maxUint64)%Z then n else 0%Z
  | None => 0%Z
  end.

(** ** Sample documents *)

Module testdata.
Import html.

Definition el (tag : string) (attrs : list Attribute) (kids : list Node)
  : Node := mkNode ElementNode tag attrs kids.

Definition tx (s : string) : Node := mkNode TextNode s [] [].

Definition at_ (k v : string) : Attribute := {| Key := k; Val := v |}.

(** The tree [html.Parse] builds around the elements of a body. *)
Definition tree (kids : list Node) : Node :=
  mkNode DocumentNode "" []
         [el "html" [] [el "head" [] []; el "body" [] kids]].

Definition doc (kids : list Node) : goquery.Document :=
  {| goquery.rootNode := tree kids |}.

Definition page (kids : list Node) : Reader := {| Parse := Ok (tree kids) |}.

(** A rank block: [<span class=cls><span><h4><a>country</a></h4>
    <div><strong>rank</strong></div></span></span>]. *)
Definition rankBlock (cls ctry rank : string) : Node :=
  el "span" [at_ "class" cls]
     [el "span" []
         [el "h4" [] [el "a" [] [tx ctry]];
          el "div" [] [el "strong" [] [tx rank]]]].

Definition table (id : string) (trs : list Node) : Node :=
  el "table" [at_ "id" id] [el "tbody" [] trs].

Definition td (kids : list Node) : Node := el "td" [] kids.
Definition span (s : string) : Node := el "span" [] [tx s].
Definition a (s : string) : Node := el "a" [] [tx s].

Definition linkingTotalBlock (v : string) : Node :=
  el "section" [at_ "id" "linksin-panel-content"]
     [el "div" []
         [el "span" []
             [el "div" [] [el "span" [at_ "class" "font-4 box1-r"] [tx v]]]]].

Definition titleBlock (v : string) : Node :=
  el "div" [at_ "class" "row-fluid siteinfo-site-summary"]
     [el "span" [] [el "div" [] [el "p" [] [tx v]]]].

Definition descriptionBlock (v : string) : Node :=
  el "section" [at_ "id" "contact-panel-content"]
     [el "div" [at_ "class" "row-fluid"]
         [el "span" [at_ "class" "span8"]
             [el "p" [at_ "class" "color-s3"] [tx v]]]].

(** The scalar fields of a page, all present. *)
Definition scalars : list Node :=
  [rankBlock "globleRank" "" "506";
   rankBlock "countryRank" "Russia" "17";
   linkingTotalBlock "8,491";
   titleBlock " Sberbank ";
   descriptionBlock "Bank."].

Definition tr (kids : list Node) : Node := el "tr" [] kids.

(** The tables of a page, all present.  The second visitor has no
    number in its rank cell. *)
Definition tables : list Node :=
  [table "demographics_div_country_table"
         [tr [td [a "Russia"]; td [span "83.8%"]; td [span "17"]];
          tr [td [a "Germany"]; td [span "1.7%"]; td [span "n/a"]]];
   table "keywords_top_keywords_table"
         [tr [td [span "1."; span " sberbank "]; td [span "7.87%"]]];
   table "keywords_upstream_site_table"
         [tr [td [a "yandex.ru"]; td [span "21.4%"]]];
   table "linksin_table"
         [tr [td [el "span" [at_ "class" "word-wrap"] [a "mail.ru"]];
              td [el "a" [at_ "class" "word-wrap";
                          at_ "href" "http://mail.ru/x"] [tx "x"]]]];
   table "audience_overlap_table" [tr [td [a " sbrf.ru "]]];
   table "category_link_table" [tr [td [a "World"; a "Russian"]]];
   table "subdomain_table"
         [tr [td [span "online.sberbank.ru "]; td [span " 69.69%"]]]].

Definition full : list Node := scalars ++ tables.

(** Two anchors under the country heading. *)
Definition twoAnchors : list Node :=
  [el "span" [at_ "class" "countryRank"]
      [el "span" [] [el "h4" [] [a "Rus"; a "sia"]]]].

End testdata.

(** * Properties *)

(** ** The model at work *)

Example TrimSpace_sample :
  strings.TrimSpace (bytes [194; 160; 9]%N ++ " 1,017 " ++ bytes [226; 128; 137; 10]%N)
  = "1,017".
Proof. vm_compute. reflexivity. Qed.

Example ParseUint_samples :
  strconv.ParseUint "18446744073709551615" = (18446744073709551615%Z, None)
  /\ strconv.ParseUint "18446744073709551616"
     = (strconv.maxUint64,
        Some (NumError "ParseUint" "18446744073709551616" ErrRange))
  /\ strconv.ParseUint "+1" = (0%Z, Some (NumError "ParseUint" "+1" ErrSyntax))
  /\ strconv.ParseUint "" = (0%Z, Some (NumError "ParseUint" "" ErrSyntax)).
Proof. repeat split; vm_compute; reflexivity. Qed.

Example compile_sample :
  cascadia.compile "td:first-child span:last-child"
  = Some [[cascadia.typeSelector "td"; cascadia.firstChild];
          [cascadia.typeSelector "span"; cascadia.lastChild]]
  /\ cascadia.compile seLinkingTotal
     = Some [[cascadia.typeSelector "section";
              cascadia.idSelector "linksin-panel-content"];
             [cascadia.typeSelector "div"]; [cascadia.typeSelector "span"];
             [cascadia.typeSelector "div"];
             [cascadia.typeSelector "span"; cascadia.classSelector "font-4";
              cascadia.classSelector "box1-r"]].
Proof. split; vm_compute; reflexivity. Qed.

(** The sample page with every section: the record, no error, and every
    extractor called. *)
Example parse_sample_page :
  parse (testdata.page testdata.full)
  = ((Some {| Title := "Sberbank";
              Description := "Bank.";
              MainCountry := "Russia";
              GlobalRank := 506;
              LocalRank := 17;
              LinkingTotal := 8491;
              Visitors :=
                [{| Visitor_Country := "Russia"; Visitor_Percent := "83.8%";
                    Visitor_LocalRank := 17 |};
                 {| Visitor_Country := "Germany"; Visitor_Percent := "1.7%";
                    Visitor_LocalRank := 0 |}];
              Keywords :=
                [{| Keyword_Word := "sberbank"; Keyword_Percent := "7.87%" |}];
              Upstreams :=
                [{| Upstream_Site := "yandex.ru";
                    Upstream_Percent := "21.4%" |}];
              Related := [" sbrf.ru "];
              Subdomains :=
                [{| Subdomain_Domain := "online.sberbank.ru ";
                    Subdomain_Percent := " 69.69%" |}];
              Categories := ["World"; "Russian"];
              LinksFrom :=
                [{| Link_Site := "mail.ru";
                    Link_Page := "http://mail.ru/x" |}] |},
      None),
     call_noEnoughData :: pipeline).
Proof. vm_compute. reflexivity. Qed.

(** The same page without its keywords table: the record up to the
    visitors, the error of [keywords], and no call after it. *)
Example parse_sample_page_without_keywords :
  parse (testdata.page
           (testdata.scalars ++ firstn 1 testdata.tables
            ++ skipn 2 testdata.tables))
  = ((Some {| Title := "Sberbank";
              Description := "Bank.";
              MainCountry := "Russia";
              GlobalRank := 506;
              LocalRank := 17;
              LinkingTotal := 8491;
              Visitors :=
                [{| Visitor_Country := "Russia"; Visitor_Percent := "83.8%";
                    Visitor_LocalRank := 17 |};
                 {| Visitor_Country := "Germany"; Visitor_Percent := "1.7%";
                    Visitor_LocalRank := 0 |}];
              Keywords := [];
              Upstreams := [];
              Related := [];
              Subdomains := [];
              Categories := [];
              LinksFrom := [] |},
      Some (errorString "no keywords found")),
     [call_noEnoughData; call_globalRank; call_localRank; call_country;
      call_linkingTotal; call_title; call_description; call_visitors;
      call_keywords]).
Proof. vm_compute. reflexivity. Qed.

Example sample_page_wellFormed :
  wellFormed (testdata.tree testdata.full) = true.
Proof. vm_compute. reflexivity. Qed.

(** ** The order of the pipeline *)

Lemma Errorf_no_found kind :
  fmt.Errorf "no %s found" [fmt.S_ kind] = errorString ("no " ++ kind ++ " found").
Proof.
  reflexivity.
Qed.

(** Splitting an extractor's result into its value and its error. *)
Ltac split_stage f d :=
  let v := fresh "v" in let e := fresh "e" in
  destruct (f d) as [v [e|]].

Ltac all_stages d :=
  split_stage globalRank d; [|
  split_stage localRank d; [|
  split_stage country d; [|
  split_stage linkingTotal d; [|
  split_stage title d; [|
  split_stage description d; [|
  split_stage visitors d; [|
  split_stage keywords d; [|
  split_stage upstreams d; [|
  split_stage linksFrom d; [|
  split_stage related d; [|
  split_stage categories d; [|
  split_stage subdomains d ]]]]]]]]]]]].

(** On a document without the marker the calls are those of the state
    machine. *)
Lemma parse_calls body d :
  goquery.NewDocumentFromReader body = Ok d ->
  noEnoughData d = false ->
  calls (parse body) = call_noEnoughData :: runStages d pipeline.
Proof.
  intros Hd Hn. unfold parse. rewrite Hd. unfold call at 1. rewrite Hn.
  unfold pipeline, runStages, stageErr, call, ret, calls.
  all_stages d; reflexivity.
Qed.

(** The error [parse] returns is that of the first stage that fails. *)
Lemma parse_value body d :
  goquery.NewDocumentFromReader body = Ok d ->
  noEnoughData d = false ->
  snd (value (parse body)) = option_map snd (firstFailure d pipeline).
Proof.
  intros Hd Hn. unfold parse. rewrite Hd. unfold call at 1. rewrite Hn.
  unfold pipeline, firstFailure, stageErr, call, ret, value.
  all_stages d; reflexivity.
Qed.

Lemma runStages_prefix d l : exists n, runStages d l = firstn n l.
Proof.
  induction l as [|c l IH]; simpl.
  - exists 0. reflexivity.
  - destruct (stageErr c d).
    + exists 1. reflexivity.
    + destruct IH as [n Hn]. exists (S n). simpl. now rewrite Hn.
Qed.

Lemma runStages_nth d l : forall j c,
  nth_error (runStages d l) j = Some c <->
  nth_error l j = Some c /\
  forall i c', i < j -> nth_error l i = Some c' -> stageErr c' d = None.
Proof.
  induction l as [|c0 l IH]; intros j c; simpl.
  - destruct j; simpl; split; try discriminate; intros [H _]; discriminate.
  - destruct j as [|j]; simpl.
    + split.
      * intros H. split; [exact H|]. intros i c' Hi. lia.
      * intros [H _]. exact H.
    + destruct (stageErr c0 d) as [e|] eqn:E.
      * split.
        -- destruct j; discriminate.
        -- intros [_ H]. specialize (H 0 c0 (Nat.lt_0_succ j) eq_refl). congruence.
      * rewrite IH. split.
        -- intros [H1 H2]. split; [exact H1|].
           intros [|i] c' Hi Hc'; simpl in Hc'.
           ++ congruence.
           ++ apply (H2 i); [lia|exact Hc'].
        -- intros [H1 H2]. split; [exact H1|].
           intros i c' Hi Hc'. apply (H2 (S i)); [lia|exact Hc'].
Qed.

Lemma pipeline_NoDup : NoDup pipeline.
Proof.
  unfold pipeline.
  repeat (constructor; [simpl; intuition discriminate|]). constructor.
Qed.

Lemma runStages_In d j c :
  nth_error pipeline j = Some c ->
  (In c (runStages d pipeline) <->
   forall i c', i < j -> nth_error pipeline i = Some c' -> stageErr c' d = None).
Proof.
  intros Hj. split.
  - intros Hin. apply In_nth_error in Hin. destruct Hin as [k Hk].
    apply runStages_nth in Hk. destruct Hk as [Hk Hall].
    assert (k = j).
    { apply (proj1 (NoDup_nth_error pipeline) pipeline_NoDup).
      - apply nth_error_Some. congruence.
      - congruence. }
    subst k. exact Hall.
  - intros Hall. apply nth_error_In with (n := j).
    apply runStages_nth. split; assumption.
Qed.

(** C2.  [parse] makes its calls in the order of the state machine: the
    calls of a run are an initial part of the no-data check followed by
    the thirteen field extractors in their fixed order.  On a document
    without the marker an extractor is called exactly when every extractor
    before it succeeded, so none is called after one that failed.  With
    the marker only the check is made, and nothing is called when the
    document cannot be read. *)
Theorem parse_fixed_order_gated (body : html.Reader) :
  (exists n, calls (parse body) = firstn n (call_noEnoughData :: pipeline)) /\
  (forall d, goquery.NewDocumentFromReader body = Ok d ->
     noEnoughData d = false ->
     forall j c, nth_error pipeline j = Some c ->
       (In c (calls (parse body)) <->
        forall i c', i < j -> nth_error pipeline i = Some c' ->
                     stageErr c' d = None)) /\
  (forall d, goquery.NewDocumentFromReader body = Ok d ->
     noEnoughData d = true -> calls (parse body) = [call_noEnoughData]) /\
  (forall e, goquery.NewDocumentFromReader body = Err e ->
     calls (parse body) = []).
Proof.
  assert (Hmark : forall d, goquery.NewDocumentFromReader body = Ok d ->
            noEnoughData d = true -> calls (parse body) = [call_noEnoughData]).
  { intros d Hd Hn. unfold parse. rewrite Hd. unfold call. rewrite Hn.
    reflexivity. }
  assert (Herr : forall e, goquery.NewDocumentFromReader body = Err e ->
            calls (parse body) = []).
  { intros e He. unfold parse. rewrite He. reflexivity. }
  split; [|split; [|split; [exact Hmark|exact Herr]]].
  - destruct (goquery.NewDocumentFromReader body) as [d|e] eqn:Hd.
    + destruct (noEnoughData d) eqn:Hn.
      * exists 1. rewrite (Hmark d eq_refl Hn). reflexivity.
      * rewrite (parse_calls body d Hd Hn).
        destruct (runStages_prefix d pipeline) as [n Hp].
        exists (S n). rewrite Hp. reflexivity.
    + exists 0. rewrite (Herr e eq_refl). reflexivity.
  - intros d Hd Hn j c Hj. rewrite (parse_calls body d Hd Hn). split.
    + intros [Hc|Hin].
      * subst c. exfalso.
        assert (Hin : In call_noEnoughData pipeline)
          by (eapply nth_error_In; eassumption).
        unfold pipeline in Hin. simpl in Hin. intuition discriminate.
      * apply (runStages_In d j c Hj). exact Hin.
    + intros Hall. right. apply (runStages_In d j c Hj). exact Hall.
Qed.

(** ** Numbers *)

Lemma parseLoop_err s0 s : forall n e,
  snd (strconv.parseLoop s0 s n) = Some e ->
  exists k, e = NumError "ParseUint" s0 k.
Proof.
  induction s as [|ch r IH]; intros n e; simpl.
  - discriminate.
  - repeat match goal with
           | |- context [if ?b then _ else _] => destruct b
           end; simpl; intros He;
      try (injection He as <-; eexists; reflexivity);
      try discriminate He; eauto.
Qed.

Lemma ParseUint_err s e :
  snd (strconv.ParseUint s) = Some e -> exists k, e = NumError "ParseUint" s k.
Proof.
  destruct s as [|c r]; unfold strconv.ParseUint.
  - intros He. injection He as <-. eexists. reflexivity.
  - apply parseLoop_err.
Qed.

Lemma digitsValue_ge s : forall acc v,
  (0 <= acc)%Z -> digitsValue s acc = Some v -> (acc <= v)%Z.
Proof.
  induction s as [|ch r IH]; intros acc v Hacc; cbn [digitsValue].
  - intros Hv. injection Hv as <-. lia.
  - unfold inRange.
    destruct (N.leb_spec 48 (byte ch)); cbn [andb]; [|discriminate].
    destruct (N.leb_spec (byte ch) 57); [|discriminate].
    intros Hv. apply IH in Hv; lia.
Qed.

Lemma parseLoop_digits s0 s : forall n v,
  (0 <= n <= strconv.maxUint64)%Z ->
  (strconv.parseLoop s0 s n = (v, None) <->
   digitsValue s n = Some v /\ (v <= strconv.maxUint64)%Z).
Proof.
  induction s as [|ch r IH]; intros n v Hn.
  - simpl. split.
    + intros H. injection H as <-. split; [reflexivity|lia].
    + intros [H _]. injection H as <-. reflexivity.
  - cbn [strconv.parseLoop digitsValue]. unfold strconv.maxUint64 in *.
    unfold inRange.
    set (c := Z.of_N (byte ch)).
    assert (Hc : (0 <= c)%Z) by (subst c; lia).
    destruct (N.leb_spec 48 (byte ch)) as [H1|H1];
      destruct (Z.leb_spec 48 c) as [H1'|H1']; try (subst c; lia);
      cbn [andb].
    2:{ destruct ((97 <=? strconv.lower c)%Z && (strconv.lower c <=? 122)%Z)%bool eqn:E.
        - apply andb_prop in E. destruct E as [E _]. apply Z.leb_le in E.
          destruct (Z.leb_spec 10 (strconv.lower c - 97 + 10)); [|lia].
          split; [discriminate|intros [? _]; discriminate].
        - split; [discriminate|intros [? _]; discriminate]. }
    destruct (N.leb_spec (byte ch) 57) as [H2|H2];
      destruct (Z.leb_spec c 57) as [H2'|H2']; try (subst c; lia);
      cbn [andb].
    2:{ destruct ((97 <=? strconv.lower c)%Z && (strconv.lower c <=? 122)%Z)%bool eqn:E.
        - apply andb_prop in E. destruct E as [E _]. apply Z.leb_le in E.
          destruct (Z.leb_spec 10 (strconv.lower c - 97 + 10)); [|lia].
          split; [discriminate|intros [? _]; discriminate].
        - split; [discriminate|intros [? _]; discriminate]. }
    destruct (Z.leb_spec 10 (c - 48)); [lia|].
    change (2 ^ 64 - 1)%Z with 18446744073709551615%Z in *.
    change (2 ^ 64)%Z with 18446744073709551616%Z in *.
    change (18446744073709551615 / 10 + 1)%Z with 1844674407370955162%Z.
    destruct (Z.leb_spec 1844674407370955162 n) as [Hcut|Hcut].
    { split; [discriminate|].
      intros [Hd Hv]. apply digitsValue_ge in Hd; lia. }
    rewrite (Z.mod_small (n * 10)) by lia.
    destruct (Z.ltb_spec ((n * 10 + (c - 48)) mod 18446744073709551616) (n * 10)) as [Hlt|Hge].
    { cbn [orb]. split; [discriminate|].
      intros [Hd Hv]. apply digitsValue_ge in Hd; [|lia].
      rewrite Z.mod_small in Hlt by lia. lia. }
    cbn [orb].
    assert (Hsmall : (n * 10 + (c - 48) < 18446744073709551616)%Z).
    { destruct (Z_lt_dec (n * 10 + (c - 48)) 18446744073709551616) as [Hs|Hs]; [exact Hs|].
      exfalso.
      assert (Hm : ((n * 10 + (c - 48)) mod 18446744073709551616
                    = n * 10 + (c - 48) - 18446744073709551616)%Z).
      { symmetry. apply Z.mod_unique with (q := 1%Z); lia. }
      lia. }
    rewrite Z.mod_small in * by lia.
    destruct (Z.ltb_spec 18446744073709551615 (n * 10 + (c - 48))); [lia|].
    replace (10 * n + (c - 48))%Z with (n * 10 + (c - 48))%Z by lia.
    apply IH. lia.
Qed.

Lemma ParseUint_digits s v :
  strconv.ParseUint s = (v, None) <->
  decimalValue s = Some v /\ (v <= strconv.maxUint64)%Z.
Proof.
  destruct s as [|c r].
  - simpl. split; [discriminate|intros [? _]; discriminate].
  - unfold strconv.ParseUint, decimalValue. apply parseLoop_digits.
    unfold strconv.maxUint64. lia.
Qed.

(** ** Scalar extraction *)

(** [getUint] in terms of the text it works on. *)
Lemma getUint_unfold {A : Type} `{findable A} (d : A) (selector kind : string) :
  getUint d selector kind =
  if String.eqb (fieldText d selector) ""
  then (0%Z, Some (errorString ("no " ++ kind ++ " found")))
  else match strconv.ParseUint
               (strings.ReplaceAll (fieldText d selector) "," "") with
       | (_, Some err) => (0%Z, Some err)
       | (value, None) => (value, None)
       end.
Proof.
  unfold getUint, fieldText. rewrite Errorf_no_found.
  destruct (String.eqb selector ""); reflexivity.
Qed.

Lemma getString_unfold {A : Type} `{findable A} (d : A) (selector kind : string) :
  getString d selector kind =
  if String.eqb (fieldText d selector) ""
  then ("", Some (errorString ("no " ++ kind ++ " found")))
  else (fieldText d selector, None).
Proof.
  unfold getString, fieldText. rewrite Errorf_no_found.
  destruct (String.eqb selector ""); reflexivity.
Qed.

Lemma getUint_err {A : Type} `{findable A} (d : A) (selector kind : string) e :
  snd (getUint d selector kind) = Some e ->
  e = errorString ("no " ++ kind ++ " found") \/
  exists num k, e = NumError "ParseUint" num k.
Proof.
  rewrite getUint_unfold.
  destruct (String.eqb (fieldText d selector) "").
  - intros He. injection He as <-. left. reflexivity.
  - destruct (strconv.ParseUint _) as [v [e'|]] eqn:E; cbn [snd]; intros He.
    + injection He as <-. right.
      assert (Hs : snd (strconv.ParseUint
                          (strings.ReplaceAll (fieldText d selector) "," ""))
                   = Some e') by (rewrite E; reflexivity).
      apply ParseUint_err in Hs. destruct Hs as [k ->]. eauto.
    + discriminate.
Qed.

Lemma getString_err {A : Type} `{findable A} (d : A) (selector kind : string) e :
  snd (getString d selector kind) = Some e ->
  e = errorString ("no " ++ kind ++ " found").
Proof.
  rewrite getString_unfold.
  destruct (String.eqb (fieldText d selector) ""); cbn [snd]; intros He.
  - injection He as <-. reflexivity.
  - discriminate.
Qed.

(** A stage reports its own missing-field text, or, where it parses a
    number, the error of [strconv]. *)
Lemma stageErr_cases d c e :
  stageErr c d = Some e ->
  e = errorString (stageMsg c) \/
  (numeric c = true /\ exists num k, e = NumError "ParseUint" num k).
Proof.
  destruct c; cbn [stageErr stageMsg numeric]; intros He; try discriminate He;
    try (apply getString_err in He; left; exact He);
    try (apply getUint_err in He; destruct He as [He|He];
         [left; exact He | right; split; [reflexivity | exact He]]);
    left;
    match type of He with
    | snd (?f d) = _ => unfold f in He
    end;
    match type of He with
    | context [if ?b then _ else _] => destruct b
    end; cbn [snd] in He; try discriminate He;
    injection He as <-; reflexivity.
Qed.

(** ** The no-data marker *)

(** C3.  On a document in which the marker selector finds a node, [parse]
    makes the marker check and no other call, and returns no [Site] and
    the error [errors.New(ErrNoEnoughData)].  No field extractor, on any
    document, reports an error equal to it. *)
Theorem parse_no_enough_data body d :
  goquery.NewDocumentFromReader body = Ok d ->
  0 < goquery.Length (Find d seNoData) ->
  parse body = ((None, Some (errors.New ErrNoEnoughData)), [call_noEnoughData])
  /\ (forall d' c e, stageErr c d' = Some e -> e <> errors.New ErrNoEnoughData).
Proof.
  intros Hd Hlen. split.
  - unfold parse. rewrite Hd. unfold call, noEnoughData.
    apply Nat.ltb_lt in Hlen. rewrite Hlen. reflexivity.
  - intros d' c e He. apply stageErr_cases in He.
    destruct He as [->|[_ [num [k ->]]]]; [|discriminate].
    destruct c; discriminate.
Qed.

Lemma parse_no_enough_data_witness :
  parse (testdata.page [testdata.el "section" [testdata.at_ "id" "no-enough-data"] []])
  = ((None, Some (errorString "no enough data")), [call_noEnoughData]).
Proof.
  apply (parse_no_enough_data
           (testdata.page [testdata.el "section" [testdata.at_ "id" "no-enough-data"] []])
           (testdata.doc [testdata.el "section" [testdata.at_ "id" "no-enough-data"] []])).
  - reflexivity.
  - vm_compute. lia.
Defined.

(** ** Partial records *)

(** C1 as stated fails at the first stage: on a page without a global
    rank, which parses and has no marker, the first failure is that of
    [globalRank], and [parse] returns its error with no [Site] at all. *)
Lemma parse_global_rank_failure_no_record :
  goquery.NewDocumentFromReader (testdata.page []) = Ok (testdata.doc []) /\
  noEnoughData (testdata.doc []) = false /\
  firstFailure (testdata.doc []) pipeline
  = Some (call_globalRank, errorString "no global rank found") /\
  value (parse (testdata.page []))
  = (None, Some (errorString "no global rank found")) /\
  ~ (exists s, fst (value (parse (testdata.page []))) = Some s).
Proof.
  repeat split; try (vm_compute; reflexivity).
  intros [s Hs]. vm_compute in Hs. discriminate.
Qed.

(** C1, amended.  On a document that parses and has no marker, when [k]
    is the first stage that fails, with error [e], [parse] returns [e].
    If [k] is the global rank it returns no [Site]; otherwise it returns
    the [Site] in which the field of every stage before [k] holds what its
    extractor returned and the field of [k] and of every later stage is
    zero. *)
Theorem parse_partial_record body d k e :
  goquery.NewDocumentFromReader body = Ok d ->
  noEnoughData d = false ->
  firstFailure d pipeline = Some (k, e) ->
  snd (value (parse body)) = Some e /\
  (k = call_globalRank -> fst (value (parse body)) = None) /\
  (k <> call_globalRank ->
   exists s, fst (value (parse body)) = Some s /\
     forall c, In c pipeline ->
       if Nat.ltb (position c) (position k) then fieldHolds c d s else fieldZero c s).
Proof.
  intros Hd Hn. unfold parse. rewrite Hd. unfold call at 1. rewrite Hn.
  unfold pipeline, firstFailure, stageErr, fieldHolds, call, ret, value.
  all_stages d; cbn [fst snd]; intros Hff; try discriminate Hff;
    injection Hff as <- <-;
    (split; [reflexivity|]);
    (split; [intros Hk; first [reflexivity | discriminate Hk]|]);
    intros Hk; try (exfalso; apply Hk; reflexivity);
    eexists; (split; [reflexivity|]);
    intros c Hin; simpl in Hin;
    repeat (destruct Hin as [<-|Hin]; [cbn; reflexivity|]);
    contradiction.
Qed.

Lemma parse_partial_record_witness :
  snd (value (parse (testdata.page [testdata.rankBlock "globleRank" "" "506"])))
  = Some (errorString "no local rank found") /\
  exists s,
    fst (value (parse (testdata.page [testdata.rankBlock "globleRank" "" "506"])))
    = Some s /\ GlobalRank s = 506%Z /\ LocalRank s = 0%Z.
Proof.
  destruct (parse_partial_record
              (testdata.page [testdata.rankBlock "globleRank" "" "506"])
              (testdata.doc [testdata.rankBlock "globleRank" "" "506"])
              call_localRank (errorString "no local rank found")
              eq_refl eq_refl eq_refl) as [He [_ Hs]].
  split; [exact He|].
  destruct (Hs ltac:(discriminate)) as [s [Hs1 Hs2]].
  exists s. split; [exact Hs1|]. split.
  - exact (Hs2 call_globalRank (or_introl eq_refl)).
  - exact (Hs2 call_localRank (or_intror (or_introl eq_refl))).
Defined.

(** ** Tabular extraction *)

Lemma eachFrom_append {B : Type} root (g : nat -> goquery.Selection -> B) :
  forall nodes i acc,
    goquery.eachFrom root nodes i (fun j tr a => a ++ [g j tr]) acc
    = acc ++ map (fun r => g (fst r) (snd r))
                 (combine (seq i (List.length nodes))
                          (map (fun p => goquery.newSingleSelection p root)
                               nodes)).
Proof.
  induction nodes as [|p nodes IH]; intros i acc; simpl.
  - now rewrite app_nil_r.
  - rewrite IH. rewrite <- app_assoc. reflexivity.
Qed.

(** A callback that appends one record per call makes [Each] a [map]
    over the rows. *)
Lemma Each_append {B : Type} s (g : nat -> goquery.Selection -> B) :
  goquery.Each s (fun j tr a => a ++ [g j tr]) []
  = map (fun r => g (fst r) (snd r)) (rows s).
Proof.
  unfold goquery.Each, rows, goquery.Length. now rewrite eachFrom_append.
Qed.

(** Nothing is found below an empty selection. *)
Lemma Find_empty s selector :
  goquery.Nodes s = [] -> goquery.Nodes (goquery.Find s selector) = [].
Proof.
  intros Hs. unfold goquery.Find, goquery.findWithMatcher, goquery.mapNodes.
  cbn [goquery.Nodes]. rewrite Hs. reflexivity.
Qed.

Lemma Length_zero s :
  Nat.eqb (goquery.Length s) 0 = true -> goquery.Nodes s = [].
Proof.
  unfold goquery.Length. destruct (goquery.Nodes s); [reflexivity|discriminate].
Qed.

Lemma rows_empty s : goquery.Nodes s = [] -> rows s = [].
Proof.
  intros Hs. unfold rows, goquery.Length. rewrite Hs. reflexivity.
Qed.

Lemma Text_empty s : goquery.Nodes s = [] -> goquery.Text s = "".
Proof. intros Hs. unfold goquery.Text. rewrite Hs. reflexivity. Qed.

(** Unfolding a tabular extractor at the test of its container. *)
Ltac tabular_unfold f :=
  unfold f; cbn [Find findable_Document findable_Selection];
  match goal with
  | |- context [Nat.eqb (goquery.Length ?t) 0] =>
    destruct (Nat.eqb (goquery.Length t) 0) eqn:Hlen
  end.

(** Each tabular extractor as a [map] over the rows it iterates, beside
    the error it reports when its container is absent. *)
Lemma visitors_unfold d :
  visitors d =
  (map (fun r => visitorRow (fst r) (snd r)) (stageRows call_visitors d),
   if Nat.eqb (goquery.Length (Find d seVisitors)) 0
   then Some (errorString "no visitors found") else None).
Proof.
  unfold stageRows, container, rowSelector.
  tabular_unfold visitors.
  - apply Length_zero in Hlen.
    rewrite (rows_empty _ (Find_empty _ "tr" Hlen)). reflexivity.
  - unfold visitorRow, cellText. f_equal.
    apply (Each_append _ (fun i tr => _)).
Qed.

Lemma keywords_unfold d :
  keywords d =
  (map (fun r => keywordRow (snd r)) (stageRows call_keywords d),
   if Nat.eqb (goquery.Length (Find d seKeywords)) 0
   then Some (errorString "no keywords found") else None).
Proof.
  unfold stageRows, container, rowSelector.
  tabular_unfold keywords.
  - apply Length_zero in Hlen.
    rewrite (rows_empty _ (Find_empty _ "tr" Hlen)). reflexivity.
  - unfold keywordRow, cellText. f_equal.
    apply (Each_append _ (fun i tr => _)).
Qed.

Lemma upstreams_unfold d :
  upstreams d =
  (map (fun r => upstreamRow (snd r)) (stageRows call_upstreams d),
   if Nat.eqb (goquery.Length (Find d seUpstreams)) 0
   then Some (errorString "no upstream servers found") else None).
Proof.
  unfold stageRows, container, rowSelector.
  tabular_unfold upstreams.
  - apply Length_zero in Hlen.
    rewrite (rows_empty _ (Find_empty _ "tr" Hlen)). reflexivity.
  - unfold upstreamRow, cellText. f_equal.
    apply (Each_append _ (fun i tr => _)).
Qed.

Lemma linksFrom_unfold d :
  linksFrom d =
  (map (fun r => linkRow (snd r)) (stageRows call_linksFrom d),
   if Nat.eqb (goquery.Length (Find d seLinks)) 0
   then Some (errorString "no linking sites found") else None).
Proof.
  unfold stageRows, container, rowSelector.
  tabular_unfold linksFrom.
  - apply Length_zero in Hlen.
    rewrite (rows_empty _ (Find_empty _ "tr" Hlen)). reflexivity.
  - unfold linkRow, cellText. f_equal.
    apply (Each_append _ (fun i tr => _)).
Qed.

Lemma related_unfold d :
  related d =
  (map (fun r => goquery.Text (Find (snd r) "a")) (stageRows call_related d),
   if Nat.eqb (goquery.Length (Find d seRelated)) 0
   then Some (errorString "no related sites found") else None).
Proof.
  unfold stageRows, container, rowSelector.
  tabular_unfold related.
  - apply Length_zero in Hlen.
    rewrite (rows_empty _ (Find_empty _ "tr" Hlen)). reflexivity.
  - f_equal. apply (Each_append _ (fun i tr => _)).
Qed.

Lemma categories_unfold d :
  categories d =
  (map (fun r => goquery.Text (snd r)) (stageRows call_categories d),
   if Nat.eqb (goquery.Length (Find d seCategories)) 0
   then Some (errorString "no categories found") else None).
Proof.
  unfold stageRows, container, rowSelector.
  tabular_unfold categories.
  - apply Length_zero in Hlen.
    rewrite (rows_empty _ (Find_empty _ "a" Hlen)). reflexivity.
  - f_equal. apply (Each_append _ (fun i tr => _)).
Qed.

Lemma subdomains_unfold d :
  subdomains d =
  (map (fun r => subdomainRow (snd r)) (stageRows call_subdomains d),
   if Nat.eqb (goquery.Length (Find d seSubdomains)) 0
   then Some (errorString "no subdomains found") else None).
Proof.
  unfold stageRows, container, rowSelector.
  tabular_unfold subdomains.
  - apply Length_zero in Hlen.
    rewrite (rows_empty _ (Find_empty _ "tr" Hlen)). reflexivity.
  - unfold subdomainRow. f_equal.
    apply (Each_append _ (fun i tr => _)).
Qed.

(** C4 as stated fails: a container that is there but has no row is not
    an error.  The page holds the visitors table with an empty body. *)
Lemma zero_rows_is_not_an_error :
  ~ (forall d c,
       In c tabular ->
       goquery.Length (Find d (container c)) = 0 \/ stageRows c d = [] ->
       stageErr c d <> None).
Proof.
  intros H.
  apply (H (testdata.doc [testdata.table "demographics_div_country_table" []])
           call_visitors).
  - left. reflexivity.
  - right. vm_compute. reflexivity.
  - vm_compute. reflexivity.
Qed.

(** The error of a tabular stage is decided by its container alone. *)
Lemma tabular_stageErr d c :
  In c tabular ->
  stageErr c d
  = (if Nat.eqb (goquery.Length (Find d (container c))) 0
     then Some (errorString (stageMsg c)) else None).
Proof.
  intros Hc. simpl in Hc.
  repeat (destruct Hc as [<-|Hc]; [cbn [stageErr stageMsg container]|]);
    try contradiction.
  - now rewrite visitors_unfold.
  - now rewrite keywords_unfold.
  - now rewrite upstreams_unfold.
  - now rewrite linksFrom_unfold.
  - now rewrite related_unfold.
  - now rewrite categories_unfold.
  - now rewrite subdomains_unfold.
Qed.

(** A tabular stage returns one sub-record for each row it iterates. *)
Lemma tabular_stageCount d c :
  In c tabular -> stageCount c d = List.length (stageRows c d).
Proof.
  intros Hc. simpl in Hc.
  repeat (destruct Hc as [<-|Hc]; [cbn [stageCount]|]); try contradiction.
  - rewrite visitors_unfold. cbn [fst]. apply length_map.
  - rewrite keywords_unfold. cbn [fst]. apply length_map.
  - rewrite upstreams_unfold. cbn [fst]. apply length_map.
  - rewrite linksFrom_unfold. cbn [fst]. apply length_map.
  - rewrite related_unfold. cbn [fst]. apply length_map.
  - rewrite categories_unfold. cbn [fst]. apply length_map.
  - rewrite subdomains_unfold. cbn [fst]. apply length_map.
Qed.

Lemma tabular_present_no_error d c :
  In c tabular ->
  0 < goquery.Length (Find d (container c)) ->
  stageErr c d = None.
Proof.
  intros Hc Hlen. rewrite (tabular_stageErr d c Hc).
  destruct (Nat.eqb_spec (goquery.Length (Find d (container c))) 0); [lia|].
  reflexivity.
Qed.

(** C4, amended.  A tabular extractor fails exactly when the selector of
    its row container finds no node, and then with the error text of its
    field; otherwise it returns as many sub-records as it iterates rows,
    none when the container has no row. *)
Theorem tabular_fails_iff_container_absent d c :
  In c tabular ->
  stageErr c d
  = (if Nat.eqb (goquery.Length (Find d (container c))) 0
     then Some (errorString (stageMsg c)) else None)
  /\ stageCount c d = List.length (stageRows c d)
  /\ (stageRows c d = [] -> stageCount c d = 0).
Proof.
  intros Hc. split; [|split].
  - apply tabular_stageErr. exact Hc.
  - apply tabular_stageCount. exact Hc.
  - intros Hrows. rewrite (tabular_stageCount d c Hc), Hrows. reflexivity.
Qed.

Lemma tabular_fails_iff_container_absent_witness :
  stageErr call_visitors
           (testdata.doc [testdata.table "demographics_div_country_table" []])
  = None
  /\ stageCount call_visitors
       (testdata.doc [testdata.table "demographics_div_country_table" []]) = 0
  /\ stageErr call_keywords
       (testdata.doc [testdata.table "demographics_div_country_table" []])
     = Some (errorString "no keywords found").
Proof.
  split; [|split].
  - apply (tabular_fails_iff_container_absent
             (testdata.doc [testdata.table "demographics_div_country_table" []])
             call_visitors).
    simpl. auto.
  - apply (tabular_fails_iff_container_absent
             (testdata.doc [testdata.table "demographics_div_country_table" []])
             call_visitors).
    + simpl. auto.
    + vm_compute. reflexivity.
  - apply (tabular_fails_iff_container_absent
             (testdata.doc [testdata.table "demographics_div_country_table" []])
             call_keywords).
    simpl. auto.
Defined.

(** ** Document order *)

Lemma docLt_irrefl p : ~ docLt p p.
Proof.
  induction p as [|i p IH]; simpl; [tauto|]. intros [H|[_ H]]; [lia|tauto].
Qed.

Lemma docLt_trans p q r : docLt p q -> docLt q r -> docLt p r.
Proof.
  revert q r. induction p as [|i p IH]; intros [|j q] [|k r]; simpl;
    try tauto.
  intros [H1|[-> H1]] [H2|[-> H2]]; try (left; lia).
  right. split; [reflexivity|]. eapply IH; eassumption.
Qed.

Lemma docLt_app p x y : docLt (p ++ x) (p ++ y) <-> docLt x y.
Proof.
  induction p as [|i p IH]; simpl; [tauto|].
  rewrite IH. split; [intros [H|[_ H]]; [lia|exact H]|auto].
Qed.

(** A node comes before the nodes below it. *)
Lemma docLt_below p i s : docLt p (p ++ i :: s).
Proof.
  rewrite <- (app_nil_r p) at 1. apply docLt_app. simpl. exact I.
Qed.

(** The nodes below a child come before the nodes below a later child. *)
Lemma docLt_siblings p i s j t : i < j -> docLt (p ++ i :: s) (p ++ j :: t).
Proof. intros Hij. apply docLt_app. simpl. left. exact Hij. Qed.

(** Induction on a tree, with the property at hand for the children. *)
Lemma Node_ind' (P : html.Node -> Prop) :
  (forall ty data attr kids,
      Forall P kids -> P (html.mkNode ty data attr kids)) ->
  forall n, P n.
Proof.
  intros Hstep. fix IH 1. intros [ty data attr kids]. apply Hstep.
  induction kids as [|c kids IHk]; constructor; [apply IH|exact IHk].
Qed.

(** What [MatchAll] returns for the subtree at [p] is in document order
    and lies at or below [p]. *)
Lemma matchAllInto_sorted m n : forall p,
  StronglySorted docLt (cascadia.matchAllInto m n p)
  /\ Forall (fun x => exists s, x = p ++ s) (cascadia.matchAllInto m n p).
Proof.
  induction n as [ty data attr kids IHkids] using Node_ind'. intros p.
  cbn [cascadia.matchAllInto].
  set (each := fix each (l : list html.Node) (i : nat) : list html.NodeRef :=
         match l with
         | [] => []
         | c :: l' => cascadia.matchAllInto m c (p ++ [i]) ++ each l' (S i)
         end).
  assert (Hkids : forall i,
             StronglySorted docLt (each kids i)
             /\ Forall (fun x => exists j s, i <= j /\ x = p ++ j :: s)
                       (each kids i)).
  { induction IHkids as [|c kids Hc _ IH]; intros i; cbn [each].
    - split; constructor.
    - destruct (Hc (p ++ [i])) as [Hs Hb]. destruct (IH (S i)) as [Hs' Hb'].
      split.
      + clear - Hs Hb Hs' Hb'.
        induction Hs as [|x l Hsl IHl Hx]; cbn [app]; [exact Hs'|].
        inversion Hb as [|? ? Hbx Hbl]; subst.
        constructor; [apply IHl; exact Hbl|].
        apply Forall_app. split; [exact Hx|].
        destruct Hbx as [s ->]. rewrite <- app_assoc. cbn [app].
        eapply Forall_impl; [|exact Hb'].
        intros y [j [t [Hj ->]]]. apply docLt_siblings. lia.
      + apply Forall_app. split.
        * eapply Forall_impl; [|exact Hb].
          intros x [s ->]. exists i, s. split; [lia|].
          rewrite <- app_assoc. reflexivity.
        * eapply Forall_impl; [|exact Hb'].
          intros x [j [s [Hj ->]]]. exists j, s. split; [lia|reflexivity]. }
  destruct (Hkids 0) as [Hs Hb]. split.
  - destruct (m p); cbn [app]; [|exact Hs].
    constructor; [exact Hs|].
    eapply Forall_impl; [|exact Hb].
    intros x [j [s [_ ->]]]. apply docLt_below.
  - apply Forall_app. split.
    + destruct (m p); constructor; [|constructor].
      exists []. now rewrite app_nil_r.
    + eapply Forall_impl; [|exact Hb].
      intros x [j [s [_ ->]]]. eexists. reflexivity.
Qed.

Lemma StronglySorted_app_docLt l1 l2 :
  StronglySorted docLt l1 -> StronglySorted docLt l2 ->
  (forall x y, In x l1 -> In y l2 -> docLt x y) ->
  StronglySorted docLt (l1 ++ l2).
Proof.
  intros H1 H2 H12. induction H1 as [|x l Hl IH Hx]; cbn [app]; [exact H2|].
  constructor.
  - apply IH. intros a b Ha Hb. apply H12; [right; exact Ha|exact Hb].
  - apply Forall_app. split; [exact Hx|].
    apply Forall_forall. intros y Hy. apply H12; [left; reflexivity|exact Hy].
Qed.

(** What [Find] collects below one node is in document order and lies
    strictly below the node. *)
Lemma matchChildren_sorted m p kids : forall i,
  StronglySorted docLt (goquery.matchChildren m p kids i)
  /\ Forall (fun x => exists j s, i <= j /\ x = p ++ j :: s)
            (goquery.matchChildren m p kids i).
Proof.
  induction kids as [|c kids IH]; intros i; cbn [goquery.matchChildren].
  - split; constructor.
  - destruct (IH (S i)) as [Hs' Hb'].
    assert (Hc : StronglySorted docLt
                   (if html.isElement c
                    then cascadia.matchAllInto m c (p ++ [i]) else [])
                 /\ Forall (fun x => exists s, x = p ++ i :: s)
                           (if html.isElement c
                            then cascadia.matchAllInto m c (p ++ [i]) else [])).
    { destruct (html.isElement c); [|split; constructor].
      destruct (matchAllInto_sorted m c (p ++ [i])) as [Hs Hb].
      split; [exact Hs|]. eapply Forall_impl; [|exact Hb].
      intros x [s ->]. exists s. rewrite <- app_assoc. reflexivity. }
    destruct Hc as [Hs Hb]. split.
    + apply StronglySorted_app_docLt; [exact Hs|exact Hs'|].
      intros x y Hx Hy.
      rewrite Forall_forall in Hb, Hb'.
      destruct (Hb x Hx) as [s ->]. destruct (Hb' y Hy) as [j [t [Hj ->]]].
      apply docLt_siblings. lia.
    + apply Forall_app. split.
      * eapply Forall_impl; [|exact Hb].
        intros x [s ->]. exists i, s. split; [lia|reflexivity].
      * eapply Forall_impl; [|exact Hb'].
        intros x [j [s [Hj ->]]]. exists j, s. split; [lia|reflexivity].
Qed.

Lemma refEqb_eq p q : html.refEqb p q = true <-> p = q.
Proof.
  unfold html.refEqb. destruct (list_eq_dec Nat.eq_dec p q); split;
    congruence.
Qed.

Lemma existsb_refEqb x l : existsb (html.refEqb x) l = true <-> In x l.
Proof.
  rewrite existsb_exists. split.
  - intros [y [Hy Hxy]]. apply refEqb_eq in Hxy. now subst.
  - intros Hx. exists x. split; [exact Hx|]. now apply refEqb_eq.
Qed.

Lemma rows_nodes s :
  map (fun r => goquery.Nodes (snd r)) (rows s)
  = map (fun p => [p]) (goquery.Nodes s).
Proof.
  unfold rows, goquery.Length.
  generalize 0. induction (goquery.Nodes s) as [|p l IH]; intros i;
    [reflexivity|].
  simpl. f_equal. apply IH.
Qed.

Lemma deref_app root p s n :
  html.deref root p = Some n -> html.deref root (p ++ s) = html.deref n s.
Proof.
  revert root. induction p as [|i p IH]; intros root; cbn [html.deref app].
  - intros Hn. now injection Hn as ->.
  - destruct (nth_error (html.children root) i) as [c|]; [apply IH|discriminate].
Qed.

Lemma deref_prefix root p s n :
  html.deref root (p ++ s) = Some n -> exists np, html.deref root p = Some np.
Proof.
  revert root. induction p as [|i p IH]; intros root; cbn [html.deref app].
  - eauto.
  - destruct (nth_error (html.children root) i) as [c|]; [apply IH|discriminate].
Qed.

(** The nodes [MatchAll] returns are the matching nodes of the subtree. *)
Lemma matchAllInto_In m n : forall p y,
  In y (cascadia.matchAllInto m n p) <->
  exists s, y = p ++ s /\ html.deref n s <> None /\ m y = true.
Proof.
  induction n as [ty data attr kids IHkids] using Node_ind'. intros p y.
  cbn [cascadia.matchAllInto].
  set (each := fix each (l : list html.Node) (i : nat) : list html.NodeRef :=
         match l with
         | [] => []
         | c :: l' => cascadia.matchAllInto m c (p ++ [i]) ++ each l' (S i)
         end).
  assert (Hkids : forall i,
             In y (each kids i) <->
             exists j c s, nth_error kids j = Some c /\ y = p ++ (i + j) :: s
                           /\ html.deref c s <> None /\ m y = true).
  { induction IHkids as [|c kids Hc _ IH]; intros i; cbn [each].
    - split; [intros []|]. intros [j [c [s [Hj _]]]]. destruct j; discriminate.
    - rewrite in_app_iff, Hc, IH. split.
      + intros [[s [-> [Hd Hm]]]|[j [c' [s [Hj [-> [Hd Hm]]]]]]].
        * exists 0, c, s. rewrite Nat.add_0_r. rewrite <- app_assoc in *.
          repeat split; assumption.
        * exists (S j), c', s. rewrite Nat.add_succ_r.
          repeat split; assumption.
      + intros [[|j] [c' [s [Hj [-> [Hd Hm]]]]]].
        * left. injection Hj as ->. exists s.
          rewrite Nat.add_0_r, <- app_assoc in *. repeat split; assumption.
        * right. exists j, c', s. rewrite Nat.add_succ_r in *.
          repeat split; assumption. }
  rewrite in_app_iff, Hkids. split.
  - intros [Hp|[j [c [s [Hj [-> [Hd Hm]]]]]]].
    + destruct (m p) eqn:E; [|destruct Hp].
      destruct Hp as [<-|[]]. exists []. rewrite app_nil_r.
      repeat split; [discriminate|exact E].
    + exists (j :: s). cbn [html.deref html.children]. rewrite Hj.
      repeat split; assumption.
  - intros [[|j s] [-> [Hd Hm]]].
    + left. rewrite app_nil_r in *. rewrite Hm. now left.
    + right. cbn [html.deref html.children] in Hd.
      destruct (nth_error kids j) as [c|] eqn:Hj; [|congruence].
      exists j, c, s. repeat split; assumption.
Qed.

Lemma matchChildren_In m p kids y : forall i,
  In y (goquery.matchChildren m p kids i) <->
  exists j c s, nth_error kids j = Some c /\ html.isElement c = true
                /\ y = p ++ (i + j) :: s
                /\ html.deref c s <> None /\ m y = true.
Proof.
  induction kids as [|c kids IH]; intros i; cbn [goquery.matchChildren].
  - split; [intros []|]. intros [j [c [s [Hj _]]]]. destruct j; discriminate.
  - rewrite in_app_iff, IH. split.
    + intros [Hc|[j [c' [s [Hj [He [-> [Hd Hm]]]]]]]].
      * destruct (html.isElement c) eqn:E; [|destruct Hc].
        apply matchAllInto_In in Hc. destruct Hc as [s [-> [Hd Hm]]].
        exists 0, c, s. rewrite Nat.add_0_r. rewrite <- app_assoc in *.
        repeat split; assumption.
      * exists (S j), c', s. rewrite Nat.add_succ_r.
        repeat split; assumption.
    + intros [[|j] [c' [s [Hj [He [-> [Hd Hm]]]]]]].
      * left. injection Hj as ->. rewrite He. apply matchAllInto_In.
        exists s. rewrite Nat.add_0_r, <- app_assoc in *.
        repeat split; assumption.
      * right. exists j, c', s. rewrite Nat.add_succ_r in *.
        repeat split; assumption.
Qed.

Lemma wellFormed_child n j c :
  wellFormed n = true -> nth_error (html.children n) j = Some c ->
  wellFormed c = true
  /\ (html.children c <> [] -> html.isElement c = true).
Proof.
  destruct n as [ty data attr kids]. cbn [wellFormed html.children].
  revert j. induction kids as [|k kids IH]; intros j Hwf Hj.
  - destruct j; discriminate.
  - apply andb_prop in Hwf. destruct Hwf as [Hk Hrest].
    apply andb_prop in Hk. destruct Hk as [Hel Hwk].
    destruct j as [|j]; [|exact (IH j Hrest Hj)].
    injection Hj as <-. split; [exact Hwk|].
    intros Hne. destruct (html.isElement k); [reflexivity|].
    destruct (html.children k); [contradiction|discriminate].
Qed.

Lemma wellFormed_deref root p : forall n,
  wellFormed root = true -> html.deref root p = Some n -> wellFormed n = true.
Proof.
  revert root. induction p as [|i p IH]; intros root n Hwf; cbn [html.deref].
  - intros Hn. now injection Hn as <-.
  - destruct (nth_error (html.children root) i) as [c|] eqn:Hc; [|discriminate].
    apply IH. now apply (wellFormed_child root i c).
Qed.

(** Two nodes in document order: the second is below the first, or they
    part at a common ancestor, the first into an earlier child. *)
Lemma docLt_cases p q :
  docLt p q ->
  (exists j t, q = p ++ j :: t)
  \/ (exists c a b p' q', p = c ++ a :: p' /\ q = c ++ b :: q' /\ a < b).
Proof.
  revert q. induction p as [|i p IH]; intros [|j q]; simpl; try tauto.
  - intros _. left. eauto.
  - intros [Hij|[-> Hpq]].
    + right. exists [], i, j, p, q. repeat split; [reflexivity..|exact Hij].
    + destruct (IH q Hpq) as [[k [t ->]]|[c [a [b [p' [q' [-> [-> Hab]]]]]]]].
      * left. exists k, t. reflexivity.
      * right. exists (j :: c), a, b, p', q'. repeat split; [reflexivity..|exact Hab].
Qed.

Lemma StronglySorted_docLt_NoDup l : StronglySorted docLt l -> NoDup l.
Proof.
  induction 1 as [|x l Hl IH Hx]; constructor; [|exact IH].
  intros Hin. rewrite Forall_forall in Hx. exact (docLt_irrefl x (Hx x Hin)).
Qed.

Lemma StronglySorted_filter (f : html.NodeRef -> bool) l :
  StronglySorted docLt l -> StronglySorted docLt (filter f l).
Proof.
  induction 1 as [|x l Hl IH Hx]; cbn [filter]; [constructor|].
  destruct (f x); [|exact IH]. constructor; [exact IH|].
  rewrite Forall_forall in *. intros y Hy. apply Hx.
  apply filter_In in Hy. tauto.
Qed.

(** Appending without duplicates keeps the target and adds, in order,
    the nodes that are new. *)
Lemma appendWithoutDuplicates_filter nodes : forall target,
  NoDup nodes ->
  goquery.appendWithoutDuplicates target nodes
  = target ++ filter (fun y => negb (existsb (html.refEqb y) target)) nodes.
Proof.
  unfold goquery.appendWithoutDuplicates.
  induction nodes as [|x nodes IH]; intros target Hnd;
    cbn [fold_left filter].
  - now rewrite app_nil_r.
  - inversion Hnd as [|? ? Hx Hnd']; subst.
    destruct (existsb (html.refEqb x) target) eqn:E; cbn [negb].
    + apply IH. exact Hnd'.
    + rewrite (IH _ Hnd'), <- app_assoc. cbn [app]. f_equal. f_equal.
      apply filter_ext_in. intros y Hy. f_equal.
      rewrite existsb_app. cbn [existsb]. rewrite orb_false_r.
      destruct (html.refEqb y x) eqn:Eyx; [|now rewrite orb_false_r].
      apply refEqb_eq in Eyx. subst y. contradiction.
Qed.

Section FindOrder.

Variable root : html.Node.
Variable m : html.NodeRef -> bool.
Hypothesis Hwf : wellFormed root = true.

Local Abbreviation below := (foundBelow root m).

Lemma below_sorted p : StronglySorted docLt (below p).
Proof.
  unfold foundBelow. destruct (html.deref root p) as [n|]; [|constructor].
  apply matchChildren_sorted.
Qed.

Lemma below_In p y :
  In y (below p) <->
  exists n j c s, html.deref root p = Some n
                  /\ nth_error (html.children n) j = Some c
                  /\ html.isElement c = true /\ y = p ++ j :: s
                  /\ html.deref c s <> None /\ m y = true.
Proof.
  unfold foundBelow. destruct (html.deref root p) as [n|].
  - rewrite matchChildren_In. split.
    + intros [j [c [s H]]]. exists n, j, c, s. cbn [Nat.add] in H. tauto.
    + intros [n' [j [c [s [Hn H]]]]]. injection Hn as <-.
      exists j, c, s. cbn [Nat.add]. tauto.
  - split; [intros []|]. intros [n [j [c [s [Hn _]]]]]. discriminate.
Qed.

(** Below a node that is itself below [p], [Find] collects nothing that
    it does not collect below [p]. *)
Lemma below_nested p j t y :
  In y (below (p ++ j :: t)) -> In y (below p).
Proof.
  rewrite !below_In.
  intros [nq [j' [c' [s' [Hq [Hj' [He' [-> [Hd' Hm]]]]]]]]].
  destruct (deref_prefix _ _ _ _ Hq) as [np Hp].
  rewrite (deref_app _ _ (j :: t) _ Hp) in Hq. cbn [html.deref] in Hq.
  destruct (nth_error (html.children np) j) as [c|] eqn:Hj; [|discriminate].
  assert (Hdc : html.deref c (t ++ j' :: s') <> None).
  { rewrite (deref_app _ _ (j' :: s') _ Hq). cbn [html.deref].
    rewrite Hj'. exact Hd'. }
  exists np, j, c, (t ++ j' :: s').
  repeat split; try assumption.
  - pose proof (wellFormed_deref _ _ _ Hwf Hp) as Hwp.
    apply (wellFormed_child np j c Hwp Hj).
    intros Hnil. apply Hdc.
    destruct t as [|k t]; cbn [app html.deref]; rewrite Hnil;
      [destruct j'|destruct k]; reflexivity.
  - rewrite <- app_assoc. reflexivity.
Qed.

Lemma below_apart p q x y :
  docLt p q -> (forall j t, q <> p ++ j :: t) ->
  In x (below p) -> In y (below q) -> docLt x y.
Proof.
  intros Hpq Hnot Hx Hy.
  apply below_In in Hx. destruct Hx as [_ [jx [_ [sx [_ [_ [_ [-> _]]]]]]]].
  apply below_In in Hy. destruct Hy as [_ [jy [_ [sy [_ [_ [_ [-> _]]]]]]]].
  destruct (docLt_cases p q Hpq)
    as [[j [t ->]]|[c [a [b [p' [q' [-> [-> Hab]]]]]]]].
  - exfalso. apply (Hnot j t). reflexivity.
  - rewrite <- !app_assoc. cbn [app]. apply docLt_siblings. exact Hab.
Qed.

Lemma sorted_before l1 x l2 p :
  StronglySorted docLt (l1 ++ x :: l2) -> In p l1 -> docLt p x.
Proof.
  induction l1 as [|a l1 IH]; cbn [app]; intros Hs Hp; [destruct Hp|].
  inversion Hs as [|? ? Hs' Hall]; subst.
  destruct Hp as [->|Hp]; [|exact (IH Hs' Hp)].
  rewrite Forall_forall in Hall. apply Hall. apply in_or_app. right. now left.
Qed.

Lemma mapNodes_sorted_from nodes : forall done acc,
  StronglySorted docLt (done ++ nodes) ->
  StronglySorted docLt acc ->
  (forall x, In x acc <-> exists p, In p done /\ In x (below p)) ->
  StronglySorted docLt
    (fold_left (fun acc n => goquery.appendWithoutDuplicates acc (below n))
               nodes acc).
Proof.
  induction nodes as [|q nodes IH]; intros done acc Hsel Hacc Hinv;
    cbn [fold_left]; [exact Hacc|].
  pose proof (appendWithoutDuplicates_filter
                (below q) acc
                (StronglySorted_docLt_NoDup _ (below_sorted q))) as Happ.
  apply (IH (done ++ [q])).
  - rewrite <- app_assoc. exact Hsel.
  - rewrite Happ. apply StronglySorted_app_docLt.
    + exact Hacc.
    + apply StronglySorted_filter. apply below_sorted.
    + intros x y Hx Hy. apply filter_In in Hy. destruct Hy as [Hy Hnew].
      apply Hinv in Hx. destruct Hx as [p [Hp Hx]].
      apply (below_apart p q); try assumption.
      * apply (sorted_before done q nodes); assumption.
      * intros j t ->. apply negb_true_iff in Hnew.
        assert (Hin : In y acc).
        { apply Hinv. exists p. split; [exact Hp|].
          apply (below_nested p j t). exact Hy. }
        apply existsb_refEqb in Hin. congruence.
  - intros x. rewrite Happ, in_app_iff, filter_In. split.
    + intros [Hx|[Hx _]].
      * apply Hinv in Hx. destruct Hx as [p [Hp Hx]].
        exists p. split; [apply in_or_app; now left|exact Hx].
      * exists q. split; [apply in_or_app; right; now left|exact Hx].
    + intros [p [Hp Hx]]. apply in_app_or in Hp.
      destruct Hp as [Hp|[<-|[]]].
      * left. apply Hinv. eauto.
      * destruct (existsb (html.refEqb x) acc) eqn:E.
        -- left. now apply existsb_refEqb.
        -- right. split; [exact Hx|reflexivity].
Qed.

Lemma findWithMatcher_sorted nodes :
  StronglySorted docLt nodes ->
  StronglySorted docLt (goquery.findWithMatcher root nodes m).
Proof.
  intros Hs. unfold goquery.findWithMatcher, goquery.mapNodes.
  apply (mapNodes_sorted_from nodes [] []).
  - exact Hs.
  - constructor.
  - intros x. split; [intros []|intros [p [[] _]]].
Qed.

End FindOrder.

(** In a well-formed document, what [Find] returns for a selection in
    document order is in document order. *)
Lemma Find_sorted s selector :
  wellFormed (goquery.document s) = true ->
  StronglySorted docLt (goquery.Nodes s) ->
  StronglySorted docLt (goquery.Nodes (goquery.Find s selector)).
Proof.
  intros Hwf Hs. unfold goquery.Find. cbn [goquery.Nodes].
  now apply findWithMatcher_sorted.
Qed.

(** The rows of a table and the anchors of the categories come in
    document order. *)
Lemma rows_document_order (d : goquery.Document) sel1 sel2 :
  wellFormed (goquery.rootNode d) = true ->
  StronglySorted docLt (goquery.Nodes (Find (Find d sel1) sel2)).
Proof.
  intros Hwf. cbn [Find findable_Document findable_Selection].
  apply Find_sorted; [exact Hwf|].
  apply Find_sorted; [exact Hwf|].
  cbn. repeat constructor.
Qed.

(** C8 as stated fails for the categories: their extractor iterates the
    anchors of the container, not its rows.  The page has one row with
    two anchors, and two categories come out of it. *)
Lemma categories_not_one_per_row :
  ~ (forall d c,
       In c tabular ->
       0 < goquery.Length (Find d (container c)) ->
       0 < goquery.Length (Find (Find d (container c)) "tr") ->
       stageCount c d = goquery.Length (Find (Find d (container c)) "tr")).
Proof.
  intros H.
  specialize (H (testdata.doc
                   [testdata.table "category_link_table"
                      [testdata.el "tr" []
                         [testdata.td [testdata.a "World";
                                       testdata.a "Russian"]]]])
                call_categories).
  vm_compute in H.
  assert (Hc : 2 = 1) by (apply H; [auto 10 | constructor | constructor]).
  discriminate Hc.
Qed.

Lemma Attr_empty s name :
  goquery.Nodes s = [] -> goquery.Attr s name = ("", false).
Proof. intros Hs. unfold goquery.Attr. rewrite Hs. reflexivity. Qed.

Lemma Last_empty s :
  goquery.Nodes s = [] -> goquery.Nodes (goquery.Last s) = [].
Proof. intros Hs. unfold goquery.Last. cbn. rewrite Hs. reflexivity. Qed.

(** C8, amended.  The visitors, keywords, upstreams, links-from, related
    and subdomains extractors return exactly one sub-record for each [tr]
    below the container, in the order in which [goquery] iterates them
    (the list is a [map] over the rows); the categories extractor returns
    one entry for each anchor below its container, in that order.  With
    the container present none of them fails, whatever the cells hold: a
    cell that is not there gives the empty string (and a visitor without
    rank cells the rank 0).  The rows are the nodes of the selection one
    by one, and in a well-formed document these are in document order. *)
Theorem tabular_one_record_per_row d :
  (fst (visitors d)
   = map (fun r => visitorRow (fst r) (snd r))
         (rows (Find (Find d seVisitors) "tr")))
  /\ (fst (keywords d)
      = map (fun r => keywordRow (snd r)) (rows (Find (Find d seKeywords) "tr")))
  /\ (fst (upstreams d)
      = map (fun r => upstreamRow (snd r))
            (rows (Find (Find d seUpstreams) "tr")))
  /\ (fst (linksFrom d)
      = map (fun r => linkRow (snd r)) (rows (Find (Find d seLinks) "tr")))
  /\ (fst (related d)
      = map (fun r => goquery.Text (Find (snd r) "a"))
            (rows (Find (Find d seRelated) "tr")))
  /\ (fst (subdomains d)
      = map (fun r => subdomainRow (snd r))
            (rows (Find (Find d seSubdomains) "tr")))
  /\ (fst (categories d)
      = map (fun r => goquery.Text (snd r))
            (rows (Find (Find d seCategories) "a")))
  /\ (forall c, In c tabular ->
        0 < goquery.Length (Find d (container c)) -> stageErr c d = None)
  /\ (forall tr selector,
        goquery.Nodes (Find tr selector) = [] ->
        cellText tr selector = ""
        /\ goquery.Text (Find tr selector) = ""
        /\ fst (goquery.Attr (Find tr selector) "href") = "")
  /\ (forall i tr,
        goquery.Nodes (Find tr "td span") = [] ->
        visitorRow i tr
        = {| Visitor_Country := cellText tr "td a";
             Visitor_Percent := "";
             Visitor_LocalRank := 0 |})
  /\ (forall s, map (fun r => goquery.Nodes (snd r)) (rows s)
                = map (fun p => [p]) (goquery.Nodes s))
  /\ (wellFormed (goquery.rootNode d) = true ->
      forall c, In c tabular ->
        StronglySorted docLt
          (goquery.Nodes (Find (Find d (container c)) (rowSelector c)))).
Proof.
  split; [now rewrite visitors_unfold|].
  split; [now rewrite keywords_unfold|].
  split; [now rewrite upstreams_unfold|].
  split; [now rewrite linksFrom_unfold|].
  split; [now rewrite related_unfold|].
  split; [now rewrite subdomains_unfold|].
  split; [now rewrite categories_unfold|].
  split; [intros c Hc Hlen; now apply tabular_present_no_error|].
  split.
  - intros tr selector Hcell. split; [|split].
    + unfold cellText. now rewrite (Text_empty _ Hcell).
    + now apply Text_empty.
    + now rewrite (Attr_empty _ _ Hcell).
  - split; [|split; [exact rows_nodes|]].
    + intros i tr Hcell. unfold visitorRow. f_equal.
      * unfold goquery.First. unfold goquery.Text at 1. cbn [goquery.Nodes].
        rewrite Hcell. reflexivity.
      * rewrite getUint_unfold. unfold fieldText.
        cbn [String.eqb Text findable_Selection].
        rewrite (Text_empty _ (Last_empty _ Hcell)). reflexivity.
    + intros Hwf c _. now apply rows_document_order.
Qed.

Lemma append_empty_r (s : string) : (s ++ "")%string = s.
Proof. induction s as [|c s IH]; simpl; [reflexivity|now rewrite IH]. Qed.

(** C10.  The related, categories and subdomains extractors put the text
    of the nodes in the record as [goquery] returns it: whatever text [t]
    an anchor or a span holds, white space included, the entry is [t].
    The visitors, keywords and upstreams tables and the scalar text fields
    hold that text after [strings.TrimSpace]. *)
Theorem related_categories_subdomains_verbatim d :
  (fst (related d)
   = map (fun r => goquery.Text (Find (snd r) "a"))
         (rows (Find (Find d seRelated) "tr")))
  /\ (fst (categories d)
      = map (fun r => goquery.Text (snd r))
            (rows (Find (Find d seCategories) "a")))
  /\ (fst (subdomains d)
      = map (fun r =>
               {| Subdomain_Domain :=
                    goquery.Text (Find (snd r) "td:first-child span");
                  Subdomain_Percent :=
                    goquery.Text (Find (snd r) "td:last-child span") |})
            (rows (Find (Find d seSubdomains) "tr")))
  /\ (forall t : string,
        fst (related (testdata.doc
                        [testdata.table "audience_overlap_table"
                           [testdata.el "tr" [] [testdata.td [testdata.a t]]]]))
        = [t])
  /\ (forall t : string,
        fst (categories (testdata.doc
                           [testdata.table "category_link_table"
                              [testdata.el "tr" []
                                 [testdata.td [testdata.a t]]]]))
        = [t])
  /\ (forall t u : string,
        fst (subdomains (testdata.doc
                           [testdata.table "subdomain_table"
                              [testdata.el "tr" []
                                 [testdata.td [testdata.span t];
                                  testdata.td [testdata.span u]]]]))
        = [{| Subdomain_Domain := t; Subdomain_Percent := u |}])
  /\ (map Visitor_Country (fst (visitors d))
      = map (fun r => strings.TrimSpace (goquery.Text (Find (snd r) "td a")))
            (rows (Find (Find d seVisitors) "tr")))
  /\ (map Visitor_Percent (fst (visitors d))
      = map (fun r =>
               strings.TrimSpace
                 (goquery.Text (goquery.First (Find (snd r) "td span"))))
            (rows (Find (Find d seVisitors) "tr")))
  /\ (fst (keywords d)
      = map (fun r =>
               {| Keyword_Word :=
                    strings.TrimSpace
                      (goquery.Text
                         (Find (snd r) "td:first-child span:last-child"));
                  Keyword_Percent :=
                    strings.TrimSpace
                      (goquery.Text (Find (snd r) "td:last-child span")) |})
            (rows (Find (Find d seKeywords) "tr")))
  /\ (fst (upstreams d)
      = map (fun r =>
               {| Upstream_Site :=
                    strings.TrimSpace (goquery.Text (Find (snd r) "td a"));
                  Upstream_Percent :=
                    strings.TrimSpace
                      (goquery.Text (Find (snd r) "td:last-child span")) |})
            (rows (Find (Find d seUpstreams) "tr")))
  /\ (forall t u : string,
        fst (keywords (testdata.doc
                         [testdata.table "keywords_top_keywords_table"
                            [testdata.el "tr" []
                               [testdata.td [testdata.span t];
                                testdata.td [testdata.span u]]]]))
        = [{| Keyword_Word := strings.TrimSpace t;
              Keyword_Percent := strings.TrimSpace u |}])
  /\ fst (country d) = strings.TrimSpace (goquery.Text (Find d seCountry))
  /\ fst (title d) = strings.TrimSpace (goquery.Text (Find d seTitle))
  /\ fst (description d)
     = strings.TrimSpace (goquery.Text (Find d seDescription)).
Proof.
  split; [now rewrite related_unfold|].
  split; [now rewrite categories_unfold|].
  split; [now rewrite subdomains_unfold|].
  split; [intros t; cbv -[String.append]; now rewrite !append_empty_r|].
  split; [intros t; cbv -[String.append]; now rewrite !append_empty_r|].
  split; [intros t u; cbv -[String.append]; now rewrite !append_empty_r|].
  split; [rewrite visitors_unfold; cbn [fst]; now rewrite map_map|].
  split; [rewrite visitors_unfold; cbn [fst]; now rewrite map_map|].
  split; [now rewrite keywords_unfold|].
  split; [now rewrite upstreams_unfold|].
  split.
  { intros t u. rewrite keywords_unfold. cbn [fst].
    unfold keywordRow, cellText.
    replace (stageRows call_keywords _) with
      [(0, goquery.newSingleSelection [0; 1; 0; 0; 0]
             (testdata.tree
                [testdata.table "keywords_top_keywords_table"
                   [testdata.el "tr" []
                      [testdata.td [testdata.span t];
                       testdata.td [testdata.span u]]]]))]
      by (vm_compute; reflexivity).
    cbn [map snd].
    replace (goquery.Text (Find _ "td:first-child span:last-child"))
      with t by (cbv -[String.append]; now rewrite !append_empty_r).
    replace (goquery.Text (Find _ "td:last-child span"))
      with u by (cbv -[String.append]; now rewrite !append_empty_r).
    reflexivity. }
  split; [|split].
  - unfold country. rewrite getString_unfold. unfold fieldText.
    cbn [String.eqb seCountry].
    destruct (String.eqb _ "") eqn:E; [|reflexivity].
    apply String.eqb_eq in E. cbn [fst]. now rewrite E.
  - unfold title. rewrite getString_unfold. unfold fieldText.
    cbn [String.eqb seTitle].
    destruct (String.eqb _ "") eqn:E; [|reflexivity].
    apply String.eqb_eq in E. cbn [fst]. now rewrite E.
  - unfold description. rewrite getString_unfold. unfold fieldText.
    cbn [String.eqb seDescription].
    destruct (String.eqb _ "") eqn:E; [|reflexivity].
    apply String.eqb_eq in E. cbn [fst]. now rewrite E.
Qed.

(** ** The contract of scalar extraction *)

(** C7 as stated fails where the selector finds more than one node: the
    text returned is that of all of them, not of the first.  Here the
    country selector finds two anchors, "Rus" and "sia". *)
Lemma getString_joins_all_matches :
  goquery.Length (Find (testdata.doc testdata.twoAnchors) seCountry) = 2
  /\ strings.TrimSpace
       (goquery.Text
          (goquery.First (Find (testdata.doc testdata.twoAnchors) seCountry)))
     = "Rus"
  /\ getString (testdata.doc testdata.twoAnchors) seCountry "country"
     = ("Russia", None).
Proof. repeat split; vm_compute; reflexivity. Qed.

(** The text of a selection is the text of its nodes, one after the
    other. *)
Lemma Text_concat s :
  goquery.Text s
  = String.concat ""
      (map (fun p => goquery.Text
                       (goquery.newSingleSelection p (goquery.document s)))
           (goquery.Nodes s)).
Proof.
  unfold goquery.Text. cbn [goquery.Nodes goquery.document]. reflexivity.
Qed.

Lemma Text_single s p :
  goquery.Nodes s = [p] -> goquery.Text s = goquery.Text (goquery.First s).
Proof.
  intros Hs. unfold goquery.First, goquery.Text.
  cbn [goquery.Nodes goquery.document]. rewrite Hs. reflexivity.
Qed.

(** C7, amended.  For a non-empty selector: when it finds no node, or
    the text found is empty once trimmed, [getString] (and [getUint])
    fail with the error "no <kind> found"; otherwise [getString] returns
    the trimmed text.  The text is that of all the nodes found, in order,
    joined; it is the text of the first node when there is only one. *)
Theorem scalar_field_contract {A : Type} `{findable A} (d : A)
        (selector kind : string) :
  selector <> "" ->
  (goquery.Nodes (Find d selector) = []
   \/ strings.TrimSpace (goquery.Text (Find d selector)) = "" ->
   getString d selector kind = ("", Some (errorString ("no " ++ kind ++ " found")))
   /\ getUint d selector kind
      = (0%Z, Some (errorString ("no " ++ kind ++ " found"))))
  /\ (strings.TrimSpace (goquery.Text (Find d selector)) <> "" ->
      getString d selector kind
      = (strings.TrimSpace (goquery.Text (Find d selector)), None))
  /\ goquery.Text (Find d selector)
     = String.concat ""
         (map (fun p => goquery.Text
                          (goquery.newSingleSelection
                             p (goquery.document (Find d selector))))
              (goquery.Nodes (Find d selector)))
  /\ (forall p, goquery.Nodes (Find d selector) = [p] ->
        goquery.Text (Find d selector)
        = goquery.Text (goquery.First (Find d selector))).
Proof.
  intros Hsel.
  assert (Hft : fieldText d selector
                = strings.TrimSpace (goquery.Text (Find d selector))).
  { unfold fieldText. destruct (String.eqb_spec selector ""); [contradiction|].
    reflexivity. }
  split; [|split; [|split]].
  - intros Hnone.
    assert (Hempty : fieldText d selector = "").
    { rewrite Hft. destruct Hnone as [Hn|Ht]; [|exact Ht].
      now rewrite (Text_empty _ Hn). }
    rewrite getString_unfold, getUint_unfold, Hempty. split; reflexivity.
  - intros Ht. rewrite getString_unfold, Hft.
    destruct (String.eqb_spec
                (strings.TrimSpace (goquery.Text (Find d selector))) "");
      [contradiction|reflexivity].
  - apply Text_concat.
  - intros p Hp. now apply Text_single with (p := p).
Qed.

Lemma scalar_field_contract_witness :
  getString (testdata.doc testdata.twoAnchors) seCountry "country"
  = ("Russia", None)
  /\ getString (testdata.doc testdata.twoAnchors) seTitle "site title"
     = ("", Some (errorString "no site title found")).
Proof.
  split.
  - destruct (scalar_field_contract (testdata.doc testdata.twoAnchors)
                                    seCountry "country")
      as [_ [Hsome _]]; [discriminate|].
    apply Hsome. vm_compute. discriminate.
  - destruct (scalar_field_contract (testdata.doc testdata.twoAnchors)
                                    seTitle "site title")
      as [Hnone _]; [discriminate|].
    apply Hnone. left. vm_compute. reflexivity.
Defined.

(** ** Numeric fields *)

Lemma HasPrefix_empty s : strings.HasPrefix s "" = true.
Proof. destruct s; reflexivity. Qed.

Lemma replaceFrom_comma s :
  strings.replaceFrom s "," "" 0 = stripCommas s.
Proof.
  induction s as [|c r IH]; [reflexivity|].
  cbn [strings.replaceFrom strings.HasPrefix stripCommas String.length Nat.sub].
  rewrite HasPrefix_empty, andb_true_r, Ascii.eqb_sym.
  destruct (Ascii.eqb c ","); cbn [String.append]; now rewrite IH.
Qed.

Lemma ReplaceAll_comma s : strings.ReplaceAll s "," "" = stripCommas s.
Proof. unfold strings.ReplaceAll. apply replaceFrom_comma. Qed.

(** C6.  When the trimmed text is not empty, [getUint] removes the commas
    from it and parses what is left as an unsigned integer: it returns
    [v] without error exactly when the text without commas is a string of
    decimal digits of value [v], at most the largest [uint64].  Otherwise
    it returns 0 and the [*strconv.NumError] of that text, which differs
    from the missing-field error.  Two texts that agree once their commas
    are removed, such as "1,234,567" and "1234567", give the same
    result. *)
Theorem getUint_strips_separators {A : Type} `{findable A} (d : A)
        (selector kind : string) :
  fieldText d selector <> "" ->
  strings.ReplaceAll (fieldText d selector) "," ""
  = stripCommas (fieldText d selector)
  /\ (forall v,
        getUint d selector kind = (v, None) <->
        decimalValue (stripCommas (fieldText d selector)) = Some v
        /\ (v <= strconv.maxUint64)%Z)
  /\ (forall e,
        snd (getUint d selector kind) = Some e ->
        (exists k,
            e = NumError "ParseUint" (stripCommas (fieldText d selector)) k)
        /\ e <> errorString ("no " ++ kind ++ " found")
        /\ fst (getUint d selector kind) = 0%Z)
  /\ (forall (B : Type) (HB : findable B) (d' : B) (selector' kind' : string),
        fieldText d' selector' <> "" ->
        stripCommas (fieldText d' selector')
        = stripCommas (fieldText d selector) ->
        getUint d' selector' kind' = getUint d selector kind).
Proof.
  intros Htext.
  assert (Hu : forall (B : Type) (HB : findable B) (b : B) sel knd,
             fieldText b sel <> "" ->
             getUint b sel knd
             = match strconv.ParseUint (stripCommas (fieldText b sel)) with
               | (_, Some err) => (0%Z, Some err)
               | (value, None) => (value, None)
               end).
  { intros B HB b sel knd Hb. rewrite getUint_unfold, ReplaceAll_comma.
    destruct (String.eqb_spec (fieldText b sel) ""); [contradiction|].
    reflexivity. }
  split; [apply ReplaceAll_comma|].
  split; [|split].
  - intros v. rewrite (Hu _ _ d selector kind Htext).
    rewrite <- ParseUint_digits.
    destruct (strconv.ParseUint _) as [v' [e|]]; split; intros Hv;
      try discriminate Hv; injection Hv as <-; reflexivity.
  - intros e. rewrite (Hu _ _ d selector kind Htext).
    destruct (strconv.ParseUint _) as [v' [e'|]] eqn:E; cbn [fst snd];
      intros He; [|discriminate He].
    injection He as <-.
    assert (Hs : snd (strconv.ParseUint (stripCommas (fieldText d selector)))
                 = Some e') by (rewrite E; reflexivity).
    apply ParseUint_err in Hs. destruct Hs as [k ->].
    split; [exists k; reflexivity|]. split; [discriminate|reflexivity].
  - intros B HB d' selector' kind' Htext' Heq.
    rewrite (Hu _ _ d' selector' kind' Htext'), (Hu _ _ d selector kind Htext).
    now rewrite Heq.
Qed.

Lemma getUint_strips_separators_witness :
  getUint (testdata.doc [testdata.span " 1,234,567 "]) "span" "rank"
  = (1234567%Z, None)
  /\ getUint (testdata.doc [testdata.span "1234567"]) "span" "rank"
     = getUint (testdata.doc [testdata.span " 1,234,567 "]) "span" "rank"
  /\ (forall e,
        snd (getUint (testdata.doc [testdata.span "12 345"]) "span" "rank")
        = Some e ->
        e <> errorString "no rank found").
Proof.
  assert (Htext : fieldText (testdata.doc [testdata.span " 1,234,567 "]) "span"
                  <> "") by (vm_compute; discriminate).
  destruct (getUint_strips_separators
              (testdata.doc [testdata.span " 1,234,567 "]) "span" "rank" Htext)
    as [_ [Hok [_ Hsame]]].
  split; [|split].
  - apply Hok. split; [vm_compute; reflexivity|].
    unfold strconv.maxUint64. lia.
  - apply Hsame; [vm_compute; discriminate | vm_compute; reflexivity].
  - intros e He.
    assert (Htext' : fieldText (testdata.doc [testdata.span "12 345"]) "span"
                     <> "") by (vm_compute; discriminate).
    destruct (getUint_strips_separators
                (testdata.doc [testdata.span "12 345"]) "span" "rank" Htext')
      as [_ [_ [Herr _]]].
    apply (Herr e He).
Defined.

(** ** The transport *)

Lemma Errorf_status code domain :
  fmt.Errorf "status code: %d, no data for %s?" [fmt.D_ code; fmt.S_ domain]
  = errorString ("status code: " ++ strconv.Itoa code
                 ++ ", no data for " ++ domain ++ "?").
Proof. reflexivity. Qed.

(** C9.  When the transport answers with a status other than 200,
    [siteInfo] returns no [Site] and an error whose text names the status
    code, and [parse] is not called: the body is not looked at. *)
Theorem siteInfo_bad_status domain (f : getFunc) resp :
  f domain = Ok resp ->
  http.StatusCode resp <> http.StatusOK ->
  siteInfo domain f
  = ((None,
      Some (errorString ("status code: " ++ strconv.Itoa (http.StatusCode resp)
                         ++ ", no data for " ++ domain ++ "?"))),
     [])
  /\ ~ In call_parse (calls (siteInfo domain f))
  /\ fst (value (siteInfo domain f)) = None.
Proof.
  intros Hf Hcode.
  assert (Hs : siteInfo domain f
               = ((None,
                   Some (errorString
                           ("status code: "
                            ++ strconv.Itoa (http.StatusCode resp)
                            ++ ", no data for " ++ domain ++ "?"))), [])).
  { unfold siteInfo. rewrite Hf.
    destruct (Z.eqb_spec (http.StatusCode resp) http.StatusOK) as [E|E];
      [contradiction|].
    cbn [negb]. rewrite Errorf_status. reflexivity. }
  rewrite Hs. split; [reflexivity|]. split; [|reflexivity].
  intros Hin. destruct Hin.
Qed.

Lemma siteInfo_bad_status_witness :
  siteInfo "https://www.alexa.com/siteinfo/example.org"
           (fun _ => Ok {| http.StatusCode := 404;
                           http.Body := testdata.page testdata.full |})
  = ((None,
      Some (errorString
              "status code: 404, no data for https://www.alexa.com/siteinfo/example.org?")),
     []).
Proof.
  apply (siteInfo_bad_status
           "https://www.alexa.com/siteinfo/example.org"
           (fun _ => Ok {| http.StatusCode := 404;
                           http.Body := testdata.page testdata.full |})
           {| http.StatusCode := 404;
              http.Body := testdata.page testdata.full |}).
  - reflexivity.
  - discriminate.
Defined.

(** ** Which errors reach the caller *)

(** C5 as stated fails inside the visitors table.  On the sample page
    the rank cell of the second visitor reads "n/a": [getUint] fails on
    it with a [*strconv.NumError], yet [visitors] and [parse] return no
    error. *)
Lemma visitor_rank_error_is_dropped :
  nth_error (rows (Find (Find (testdata.doc testdata.full) seVisitors) "tr")) 1
  = Some (1, goquery.newSingleSelection [0; 1; 5; 0; 1]
                                        (testdata.tree testdata.full))
  /\ getUint (goquery.Last
                (Find (goquery.newSingleSelection
                         [0; 1; 5; 0; 1] (testdata.tree testdata.full))
                      "td span"))
             "" (fmt.Sprintf "%d country rank" [fmt.D_ 1%Z])
     = (0%Z, Some (NumError "ParseUint" "n/a" ErrSyntax))
  /\ snd (visitors (testdata.doc testdata.full)) = None
  /\ snd (value (parse (testdata.page testdata.full))) = None.
Proof. repeat split; vm_compute; reflexivity. Qed.

(** The missing-field texts of two stages differ. *)
Lemma stageMsg_inj c c' :
  In c pipeline -> In c' pipeline -> stageMsg c = stageMsg c' -> c = c'.
Proof.
  unfold pipeline. simpl. intros Hc Hc'.
  repeat (destruct Hc as [<-|Hc]; [|]); try contradiction;
    repeat (destruct Hc' as [<-|Hc']; [|]); try contradiction;
    intros Hm; first [reflexivity | discriminate Hm].
Qed.

Lemma stageErr_pipeline d c e : stageErr c d = Some e -> In c pipeline.
Proof.
  destruct c; cbn [stageErr]; intros He; try discriminate He;
    unfold pipeline; simpl; auto 15.
Qed.

Lemma getUint_err_zero {A : Type} `{findable A} (d : A) selector kind e :
  snd (getUint d selector kind) = Some e -> fst (getUint d selector kind) = 0%Z.
Proof.
  rewrite getUint_unfold.
  destruct (String.eqb (fieldText d selector) ""); [reflexivity|].
  destruct (strconv.ParseUint _) as [v [e'|]]; cbn [fst snd];
    [reflexivity|discriminate].
Qed.

(** C5, amended.  What fails at the level of the document reaches the
    caller unchanged: the reader's error, the no-data error, and the error
    of the first field extractor that fails ([nil] when none does);
    [siteInfo] passes on the transport's error and the result of [parse].
    The error tells the failure: apart from the [*strconv.NumError] of a
    malformed number, two extractors never report the same error, and
    none reports the no-data error.  What fails inside a row of the
    visitors table does not reach the caller: with the container present
    [visitors] returns no error, and a row whose rank cannot be extracted
    gets the rank 0. *)
Theorem errors_returned_or_dropped body :
  (forall e, goquery.NewDocumentFromReader body = Err e ->
             value (parse body) = (None, Some e))
  /\ (forall d, goquery.NewDocumentFromReader body = Ok d ->
                noEnoughData d = true ->
                value (parse body) = (None, Some (errors.New ErrNoEnoughData)))
  /\ (forall d, goquery.NewDocumentFromReader body = Ok d ->
                noEnoughData d = false ->
                snd (value (parse body))
                = option_map snd (firstFailure d pipeline))
  /\ (forall domain (f : getFunc) e,
        f domain = Err e -> value (siteInfo domain f) = (None, Some e))
  /\ (forall domain (f : getFunc) resp,
        f domain = Ok resp -> http.StatusCode resp = http.StatusOK ->
        value (siteInfo domain f) = value (parse (http.Body resp)))
  /\ (forall d d' c c' e,
        stageErr c d = Some e -> stageErr c' d' = Some e ->
        c = c' \/ exists num k, e = NumError "ParseUint" num k)
  /\ (forall d c e,
        stageErr c d = Some e -> e <> errors.New ErrNoEnoughData)
  /\ (forall d, 0 < goquery.Length (Find d seVisitors) ->
                snd (visitors d) = None)
  /\ (forall i tr e,
        snd (getUint (goquery.Last (Find tr "td span")) ""
                     (fmt.Sprintf "%d country rank" [fmt.D_ (Z.of_nat i)]))
        = Some e ->
        Visitor_LocalRank (visitorRow i tr) = 0%Z).
Proof.
  split.
  { intros e He. unfold parse. rewrite He. reflexivity. }
  split.
  { intros d Hd Hn. unfold parse. rewrite Hd. unfold call. rewrite Hn.
    reflexivity. }
  split; [intros d Hd Hn; now apply parse_value|].
  split.
  { intros domain f e Hf. unfold siteInfo. rewrite Hf. reflexivity. }
  split.
  { intros domain f resp Hf Hcode. unfold siteInfo. rewrite Hf, Hcode.
    cbn [Z.eqb negb]. unfold call, value, calls.
    destruct (parse (http.Body resp)) as [r t]. reflexivity. }
  split.
  { intros d d' c c' e Hc Hc'.
    pose proof (stageErr_pipeline _ _ _ Hc) as Hin.
    pose proof (stageErr_pipeline _ _ _ Hc') as Hin'.
    apply stageErr_cases in Hc. apply stageErr_cases in Hc'.
    destruct Hc as [->|[_ Hnum]]; [|right; exact Hnum].
    destruct Hc' as [Hm|[_ [num [k Hnum]]]]; [|discriminate Hnum].
    left. injection Hm as Hm. now apply stageMsg_inj. }
  split.
  { intros d c e He. apply stageErr_cases in He.
    destruct He as [->|[_ [num [k ->]]]]; [|discriminate].
    destruct c; discriminate. }
  split.
  { intros d Hlen.
    apply (tabular_present_no_error d call_visitors); [simpl; auto|exact Hlen]. }
  intros i tr e He. unfold visitorRow. cbn [Visitor_LocalRank].
  rewrite (getUint_err_zero _ _ _ _ He). reflexivity.
Qed.

(** * Further properties of the package *)

(** ** When [parse] succeeds *)

Lemma firstFailure_None d l :
  firstFailure d l = None <-> forall c, In c l -> stageErr c d = None.
Proof.
  induction l as [|c0 l IH]; cbn [firstFailure].
  - split; [intros _ c []|reflexivity].
  - destruct (stageErr c0 d) as [e|] eqn:E.
    + split; [discriminate|]. intros H.
      specialize (H c0 (or_introl eq_refl)). congruence.
    + rewrite IH. split.
      * intros H c [<-|Hc]; [exact E|now apply H].
      * intros H c Hc. apply H. now right.
Qed.

(** [parse] ends without error exactly on a readable document without
    the marker on which no extractor fails. *)
Lemma parse_ok_iff body :
  snd (value (parse body)) = None <->
  exists d, goquery.NewDocumentFromReader body = Ok d
            /\ noEnoughData d = false
            /\ forall c, In c pipeline -> stageErr c d = None.
Proof.
  destruct (goquery.NewDocumentFromReader body) as [d|e] eqn:Hd.
  - destruct (noEnoughData d) eqn:Hn.
    + split.
      * unfold parse. rewrite Hd. unfold call. rewrite Hn. discriminate.
      * intros [d' [Hd' [Hn' _]]]. injection Hd' as <-. congruence.
    + rewrite (parse_value body d Hd Hn). split.
      * intros Hff. exists d. repeat split; try assumption.
        apply firstFailure_None.
        destruct (firstFailure d pipeline); [discriminate|reflexivity].
      * intros [d' [Hd' [_ Hall]]]. injection Hd' as <-.
        apply firstFailure_None in Hall. now rewrite Hall.
  - split.
    + unfold parse. rewrite Hd. discriminate.
    + intros [d [Hd' _]]. discriminate.
Qed.

(** When [parse] ends without error it has called every extractor, and
    every field of the [Site] holds what its extractor returned. *)
Lemma parse_ok_site body d :
  goquery.NewDocumentFromReader body = Ok d ->
  snd (value (parse body)) = None ->
  exists s, fst (value (parse body)) = Some s
            /\ (forall c, In c pipeline -> fieldHolds c d s)
            /\ calls (parse body) = call_noEnoughData :: pipeline.
Proof.
  intros Hd. unfold parse. rewrite Hd. unfold call at 1.
  destruct (noEnoughData d); [discriminate|].
  unfold pipeline, fieldHolds, call, ret, value, calls.
  all_stages d; cbn [fst snd]; intros Hnil; try discriminate Hnil.
  eexists. split; [reflexivity|]. split; [|reflexivity].
  intros c Hin; simpl in Hin.
  repeat (destruct Hin as [<-|Hin]; [reflexivity|]). contradiction.
Qed.

(** X1.  [parse] returns a nil error exactly when the document can be
    read, has no marker, and none of the thirteen extractors fails; it
    has then called every extractor, and every field of the [Site] holds
    what its extractor returned. *)
Theorem parse_succeeds_iff body :
  (snd (value (parse body)) = None <->
   exists d, goquery.NewDocumentFromReader body = Ok d
             /\ noEnoughData d = false
             /\ forall c, In c pipeline -> stageErr c d = None)
  /\ (forall d, goquery.NewDocumentFromReader body = Ok d ->
        snd (value (parse body)) = None ->
        exists s, fst (value (parse body)) = Some s
                  /\ (forall c, In c pipeline -> fieldHolds c d s)
                  /\ calls (parse body) = call_noEnoughData :: pipeline).
Proof.
  split; [apply parse_ok_iff|]. intros d Hd Hnil. now apply parse_ok_site.
Qed.

(** ** Numbers in the record *)

Lemma decimalValue_nonneg s v : decimalValue s = Some v -> (0 <= v)%Z.
Proof.
  destruct s as [|c r]; [discriminate|]. unfold decimalValue.
  intros Hv. apply digitsValue_ge in Hv; lia.
Qed.

(** The value [getUint] returns is the number its text stands for. *)
Lemma getUint_value {A : Type} `{findable A} (d : A) (selector kind : string) :
  fst (getUint d selector kind) = numberOf (fieldText d selector).
Proof.
  rewrite getUint_unfold, ReplaceAll_comma. unfold numberOf.
  destruct (String.eqb_spec (fieldText d selector) "") as [E|E].
  - rewrite E. reflexivity.
  - destruct (strconv.ParseUint (stripCommas (fieldText d selector)))
      as [v [e|]] eqn:Hp; cbn [fst].
    + destruct (decimalValue (stripCommas (fieldText d selector)))
        as [n|] eqn:Hn; [|reflexivity].
      destruct (Z.leb_spec n strconv.maxUint64) as [Hle|Hgt]; [|reflexivity].
      assert (Hok : strconv.ParseUint (stripCommas (fieldText d selector))
                    = (n, None)) by (apply ParseUint_digits; auto).
      congruence.
    + apply ParseUint_digits in Hp. destruct Hp as [Hn Hle]. rewrite Hn.
      destruct (Z.leb_spec v strconv.maxUint64); [reflexivity|lia].
Qed.

Lemma numberOf_range text : (0 <= numberOf text <= strconv.maxUint64)%Z.
Proof.
  unfold numberOf.
  destruct (decimalValue (stripCommas text)) as [n|] eqn:Hn;
    [|unfold strconv.maxUint64; lia].
  apply decimalValue_nonneg in Hn.
  destruct (Z.leb_spec n strconv.maxUint64); unfold strconv.maxUint64 in *; lia.
Qed.

(** On a 64-bit target the conversion to [uint] changes nothing. *)
Lemma uint_numberOf text : uint (numberOf text) = numberOf text.
Proof.
  unfold uint, uintSize. apply Z.mod_small.
  pose proof (numberOf_range text) as Hr. unfold strconv.maxUint64 in Hr. lia.
Qed.

(** [getUint] succeeds exactly on a text that, its commas removed, is a
    string of decimal digits within [uint64]. *)
Lemma getUint_ok_iff {A : Type} `{findable A} (d : A) (selector kind : string) :
  snd (getUint d selector kind) = None <->
  exists n, decimalValue (stripCommas (fieldText d selector)) = Some n
            /\ (n <= strconv.maxUint64)%Z.
Proof.
  rewrite getUint_unfold, ReplaceAll_comma.
  destruct (String.eqb_spec (fieldText d selector) "") as [E|E].
  - rewrite E. split; [discriminate|]. intros [n [Hn _]]. discriminate.
  - destruct (strconv.ParseUint (stripCommas (fieldText d selector)))
      as [v [e|]] eqn:Hp; cbn [snd].
    + split; [discriminate|]. intros [n [Hn Hle]].
      assert (Hok : strconv.ParseUint (stripCommas (fieldText d selector))
                    = (n, None)) by (apply ParseUint_digits; auto).
      congruence.
    + split; [|reflexivity]. intros _. exists v. now apply ParseUint_digits.
Qed.

(** ** When [parse] returns a [Site] *)

(** Past the global rank [parse] always returns a [Site], and its
    [GlobalRank] is the rank extracted. *)
Lemma parse_site_after_globalRank body d gr :
  goquery.NewDocumentFromReader body = Ok d ->
  noEnoughData d = false ->
  globalRank d = (gr, None) ->
  exists s, fst (value (parse body)) = Some s /\ GlobalRank s = uint gr.
Proof.
  intros Hd Hn Hg. unfold parse. rewrite Hd. unfold call at 1. rewrite Hn.
  unfold call, ret, value. rewrite Hg.
  split_stage localRank d; [|
  split_stage country d; [|
  split_stage linkingTotal d; [|
  split_stage title d; [|
  split_stage description d; [|
  split_stage visitors d; [|
  split_stage keywords d; [|
  split_stage upstreams d; [|
  split_stage linksFrom d; [|
  split_stage related d; [|
  split_stage categories d; [|
  split_stage subdomains d ]]]]]]]]]]];
    cbn [fst]; eexists; split; reflexivity.
Qed.

Lemma parse_no_site body :
  (exists e, goquery.NewDocumentFromReader body = Err e)
  \/ (exists d, goquery.NewDocumentFromReader body = Ok d
                /\ (noEnoughData d = true \/ snd (globalRank d) <> None)) ->
  fst (value (parse body)) = None /\ snd (value (parse body)) <> None.
Proof.
  unfold parse. intros [[e He]|[d [Hd Hc]]].
  - rewrite He. split; [reflexivity|discriminate].
  - rewrite Hd. unfold call at 1 2. destruct (noEnoughData d) eqn:Hn.
    + split; [reflexivity|discriminate].
    + destruct Hc as [Hc|Hg]; [discriminate|].
      unfold call, ret, value.
      destruct (globalRank d) as [gr [e|]]; [|contradiction].
      split; [reflexivity|discriminate].
Qed.

(** X2.  [parse] returns no [Site] exactly when the document cannot be
    read, holds the marker, or [globalRank] fails on it; it then returns
    an error, never nil with nil.  A [Site] that is returned comes from a
    readable document without the marker whose global rank was extracted
    and is the [GlobalRank] of the [Site], whatever failed later. *)
Theorem parse_nil_site body :
  (fst (value (parse body)) = None <->
   (exists e, goquery.NewDocumentFromReader body = Err e)
   \/ exists d, goquery.NewDocumentFromReader body = Ok d
                /\ (noEnoughData d = true \/ snd (globalRank d) <> None))
  /\ (fst (value (parse body)) = None -> snd (value (parse body)) <> None)
  /\ (forall s, fst (value (parse body)) = Some s ->
        exists d, goquery.NewDocumentFromReader body = Ok d
                  /\ noEnoughData d = false
                  /\ globalRank d = (GlobalRank s, None)).
Proof.
  assert (Hcases :
            ((exists e, goquery.NewDocumentFromReader body = Err e)
             \/ exists d, goquery.NewDocumentFromReader body = Ok d
                /\ (noEnoughData d = true \/ snd (globalRank d) <> None))
            \/ exists d gr, goquery.NewDocumentFromReader body = Ok d
                            /\ noEnoughData d = false
                            /\ globalRank d = (gr, None)).
  { destruct (goquery.NewDocumentFromReader body) as [d|e];
      [|left; left; eauto].
    destruct (noEnoughData d) eqn:Hn; [left; right; eauto|].
    destruct (globalRank d) as [gr [e|]] eqn:Hg.
    - left. right. exists d. split; [reflexivity|]. right. rewrite Hg.
      discriminate.
    - right. exists d, gr. auto. }
  destruct Hcases as [Hnil|[d [gr [Hd [Hn Hg]]]]].
  - destruct (parse_no_site body Hnil) as [Hf Hs].
    split; [|split].
    + split; [intros _; exact Hnil|intros _; exact Hf].
    + intros _. exact Hs.
    + intros s Hsome. congruence.
  - destruct (parse_site_after_globalRank body d gr Hd Hn Hg) as [s [Hs Hgr]].
    split; [|split].
    + split; [congruence|].
      intros [[e He]|[d' [Hd' [Hm|Hg']]]]; try congruence.
      assert (d' = d) by congruence. subst d'. rewrite Hg in Hg'.
      exfalso. apply Hg'. reflexivity.
    + congruence.
    + intros s' Hs'. assert (s' = s) by congruence. subst s'.
      exists d. repeat split; try assumption.
      rewrite Hgr, Hg. f_equal.
      assert (Hv : gr = fst (globalRank d)) by (rewrite Hg; reflexivity).
      unfold globalRank in Hv. rewrite getUint_value in Hv.
      rewrite Hv. symmetry. apply uint_numberOf.
Qed.

(** X3.  In a [Site] returned without error the three numbers are the
    numbers on the page: the trimmed text of each numeric selector, its
    commas removed, is a string of decimal digits whose value is the
    field, and the value is within [uint64] (the conversion to [uint]
    has changed nothing). *)
Theorem parse_ranks_are_page_numbers body d s :
  goquery.NewDocumentFromReader body = Ok d ->
  value (parse body) = (Some s, None) ->
  decimalValue (stripCommas (fieldText d seGlobalRank)) = Some (GlobalRank s)
  /\ decimalValue (stripCommas (fieldText d seLocalRank)) = Some (LocalRank s)
  /\ decimalValue (stripCommas (fieldText d seLinkingTotal))
     = Some (LinkingTotal s)
  /\ (0 <= GlobalRank s <= strconv.maxUint64)%Z
  /\ (0 <= LocalRank s <= strconv.maxUint64)%Z
  /\ (0 <= LinkingTotal s <= strconv.maxUint64)%Z.
Proof.
  intros Hd Hv.
  assert (Hnil : snd (value (parse body)) = None) by (rewrite Hv; reflexivity).
  destruct (parse_ok_site body d Hd Hnil) as [s' [Hs' [Hfields _]]].
  assert (s' = s) by (rewrite Hv in Hs'; cbn in Hs'; congruence). subst s'.
  apply parse_ok_iff in Hnil. destruct Hnil as [d' [Hd' [_ Hall]]].
  assert (d' = d) by congruence. subst d'.
  assert (Hnum : forall sel kind v,
             v = uint (fst (getUint d sel kind)) ->
             snd (getUint d sel kind) = None ->
             decimalValue (stripCommas (fieldText d sel)) = Some v
             /\ (0 <= v <= strconv.maxUint64)%Z).
  { intros sel kind v -> Hok. rewrite getUint_value, uint_numberOf.
    split; [|apply numberOf_range].
    apply getUint_ok_iff in Hok. destruct Hok as [n [Hn Hle]].
    unfold numberOf. rewrite Hn.
    destruct (Z.leb_spec n strconv.maxUint64); [reflexivity|lia]. }
  pose proof (Hfields call_globalRank ltac:(simpl; auto)) as Hg.
  pose proof (Hfields call_localRank ltac:(simpl; auto)) as Hl.
  pose proof (Hfields call_linkingTotal ltac:(simpl; auto)) as Ht.
  pose proof (Hall call_globalRank ltac:(simpl; auto)) as Hge.
  pose proof (Hall call_localRank ltac:(simpl; auto)) as Hle.
  pose proof (Hall call_linkingTotal ltac:(simpl; auto)) as Hte.
  cbn [fieldHolds stageErr] in *.
  destruct (Hnum _ _ _ Hg Hge) as [H1 H1'].
  destruct (Hnum _ _ _ Hl Hle) as [H2 H2'].
  destruct (Hnum _ _ _ Ht Hte) as [H3 H3'].
  repeat split; assumption || lia.
Qed.

Lemma parse_ranks_are_page_numbers_witness :
  fieldText (testdata.doc testdata.full) seLinkingTotal = "8,491"
  /\ decimalValue (stripCommas
                     (fieldText (testdata.doc testdata.full) seLinkingTotal))
     = Some 8491%Z.
Proof.
  split; [vm_compute; reflexivity|].
  destruct (parse_ranks_are_page_numbers
              (testdata.page testdata.full) (testdata.doc testdata.full)
              {| Title := "Sberbank";
                 Description := "Bank.";
                 MainCountry := "Russia";
                 GlobalRank := 506;
                 LocalRank := 17;
                 LinkingTotal := 8491;
                 Visitors :=
                   [{| Visitor_Country := "Russia"; Visitor_Percent := "83.8%";
                       Visitor_LocalRank := 17 |};
                    {| Visitor_Country := "Germany"; Visitor_Percent := "1.7%";
                       Visitor_LocalRank := 0 |}];
                 Keywords :=
                   [{| Keyword_Word := "sberbank";
                       Keyword_Percent := "7.87%" |}];
                 Upstreams :=
                   [{| Upstream_Site := "yandex.ru";
                       Upstream_Percent := "21.4%" |}];
                 Related := [" sbrf.ru "];
                 Subdomains :=
                   [{| Subdomain_Domain := "online.sberbank.ru ";
                       Subdomain_Percent := " 69.69%" |}];
                 Categories := ["World"; "Russian"];
                 LinksFrom :=
                   [{| Link_Site := "mail.ru";
                       Link_Page := "http://mail.ru/x" |}] |})
    as [_ [_ [Hlt _]]].
  - reflexivity.
  - vm_compute. reflexivity.
  - exact Hlt.
Defined.

(** ** Trimmed text *)

Lemma trimLeft_fuel n : forall l,
  List.length l <= n -> leadingSpace (strings.trimLeft l) = false.
Proof.
  induction n as [|n IH]; intros l Hl.
  - destruct l; [reflexivity|simpl in Hl; lia].
  - destruct l as [|a [|b [|c r]]]; cbn [strings.trimLeft leadingSpace];
      cbn [List.length] in Hl.
    + reflexivity.
    + destruct (strings.isSpace1 a) eqn:E1; cbn [leadingSpace];
        [reflexivity|]. now rewrite E1.
    + destruct (strings.isSpace1 a) eqn:E1.
      * apply (IH [b]). cbn [List.length]. lia.
      * destruct (strings.isSpace2 a b) eqn:E2; cbn [leadingSpace];
          [reflexivity|]. now rewrite E1, E2.
    + destruct (strings.isSpace1 a) eqn:E1.
      * apply (IH (b :: c :: r)). cbn [List.length]. lia.
      * destruct (strings.isSpace2 a b) eqn:E2.
        -- apply (IH (c :: r)). cbn [List.length]. lia.
        -- destruct (strings.isSpace3 a b c) eqn:E3.
           ++ apply (IH r). lia.
           ++ cbn [leadingSpace]. now rewrite E1, E2, E3.
Qed.

Lemma trimRightRev_fuel n : forall l,
  List.length l <= n ->
  trailingSpaceRev (strings.trimRightRev l) = false
  /\ exists pre, l = pre ++ strings.trimRightRev l.
Proof.
  induction n as [|n IH]; intros l Hl.
  - destruct l; [split; [reflexivity|exists []; reflexivity]|simpl in Hl; lia].
  - destruct l as [|a [|b [|c r]]];
      cbn [strings.trimRightRev trailingSpaceRev]; cbn [List.length] in Hl.
    + split; [reflexivity|exists []; reflexivity].
    + destruct (strings.isSpace1 a) eqn:E1; cbn [trailingSpaceRev].
      * split; [reflexivity|exists [a]; reflexivity].
      * rewrite E1. split; [reflexivity|exists []; reflexivity].
    + destruct (strings.isSpace1 a) eqn:E1.
      * destruct (IH [b]) as [Ht [pre Hp]]; [cbn [List.length]; lia|].
        split; [exact Ht|]. exists (a :: pre).
        exact (f_equal (cons a) Hp).
      * destruct (strings.isSpace2 b a) eqn:E2; cbn [trailingSpaceRev].
        -- split; [reflexivity|exists [a; b]; reflexivity].
        -- rewrite E1, E2. split; [reflexivity|exists []; reflexivity].
    + destruct (strings.isSpace1 a) eqn:E1.
      * destruct (IH (b :: c :: r)) as [Ht [pre Hp]]; [cbn [List.length]; lia|].
        split; [exact Ht|]. exists (a :: pre).
        exact (f_equal (cons a) Hp).
      * destruct (strings.isSpace2 b a) eqn:E2.
        -- destruct (IH (c :: r)) as [Ht [pre Hp]]; [cbn [List.length]; lia|].
           split; [exact Ht|]. exists (a :: b :: pre).
           exact (f_equal (fun x => a :: b :: x) Hp).
        -- destruct (strings.isSpace3 c b a) eqn:E3.
           ++ destruct (IH r) as [Ht [pre Hp]]; [lia|].
              split; [exact Ht|]. exists (a :: b :: c :: pre).
              exact (f_equal (fun x => a :: b :: c :: x) Hp).
           ++ cbn [trailingSpaceRev]. rewrite E1, E2, E3.
              split; [reflexivity|exists []; reflexivity].
Qed.

(** A prefix of a sequence without leading white space has none. *)
Lemma leadingSpace_prefix p q :
  leadingSpace (p ++ q) = false -> leadingSpace p = false.
Proof.
  destruct p as [|a [|b [|c r]]]; cbn [app leadingSpace]; try reflexivity.
  - destruct (strings.isSpace1 a); [|reflexivity].
    cbn [orb]. auto.
  - destruct (strings.isSpace1 a); cbn [orb]; [auto|].
    destruct (strings.isSpace2 a b); cbn [orb]; [|reflexivity].
    auto.
  - auto.
Qed.

Lemma trimLeft_fixed l : leadingSpace l = false -> strings.trimLeft l = l.
Proof.
  destruct l as [|a [|b [|c r]]]; cbn [leadingSpace strings.trimLeft];
    try reflexivity.
  - destruct (strings.isSpace1 a); [discriminate|reflexivity].
  - destruct (strings.isSpace1 a); [discriminate|].
    destruct (strings.isSpace2 a b); [discriminate|reflexivity].
  - destruct (strings.isSpace1 a); [discriminate|].
    destruct (strings.isSpace2 a b); [discriminate|].
    destruct (strings.isSpace3 a b c); [discriminate|reflexivity].
Qed.

Lemma trimRightRev_fixed l :
  trailingSpaceRev l = false -> strings.trimRightRev l = l.
Proof.
  destruct l as [|a [|b [|c r]]]; cbn [trailingSpaceRev strings.trimRightRev];
    try reflexivity.
  - destruct (strings.isSpace1 a); [discriminate|reflexivity].
  - destruct (strings.isSpace1 a); [discriminate|].
    destruct (strings.isSpace2 b a); [discriminate|reflexivity].
  - destruct (strings.isSpace1 a); [discriminate|].
    destruct (strings.isSpace2 b a); [discriminate|].
    destruct (strings.isSpace3 c b a); [discriminate|reflexivity].
Qed.

(** What [TrimSpace] returns neither begins nor ends with white space,
    and trimming it again changes nothing. *)
Lemma TrimSpace_trimmed s :
  startsWithSpace (strings.TrimSpace s) = false
  /\ endsWithSpace (strings.TrimSpace s) = false
  /\ strings.TrimSpace (strings.TrimSpace s) = strings.TrimSpace s.
Proof.
  unfold startsWithSpace, endsWithSpace, strings.TrimSpace.
  set (l := strings.trimLeft (list_ascii_of_string s)).
  assert (Hl : leadingSpace l = false)
    by (apply (trimLeft_fuel (List.length (list_ascii_of_string s)));
        apply Nat.le_refl).
  destruct (trimRightRev_fuel (List.length (rev l)) (rev l) (Nat.le_refl _))
    as [Ht [pre Hp]].
  set (t := strings.trimRightRev (rev l)) in *.
  assert (Hpre : l = rev t ++ rev pre).
  { rewrite <- rev_app_distr, <- Hp. now rewrite rev_involutive. }
  assert (Hlt : leadingSpace (rev t) = false).
  { apply (leadingSpace_prefix _ (rev pre)). now rewrite <- Hpre. }
  rewrite !list_ascii_of_string_of_list_ascii, rev_involutive.
  split; [exact Hlt|]. split; [exact Ht|].
  rewrite (trimLeft_fixed _ Hlt), rev_involutive.
  now rewrite (trimRightRev_fixed _ Ht).
Qed.

(** X4.  A text [getString] returns without error is not empty, neither
    begins nor ends with white space, and is left unchanged by
    [strings.TrimSpace]; with an error the text returned is empty and the
    error is "no <kind> found".  So the country, title and description of
    a [Site] returned without error are non-empty and trimmed. *)
Theorem getString_result_trimmed {A : Type} `{findable A} (d : A)
        (selector kind : string) :
  (forall s, getString d selector kind = (s, None) ->
     s <> "" /\ startsWithSpace s = false /\ endsWithSpace s = false
     /\ strings.TrimSpace s = s)
  /\ (forall e, snd (getString d selector kind) = Some e ->
        getString d selector kind
        = ("", Some (errorString ("no " ++ kind ++ " found"))))
  /\ (forall body s,
        value (parse body) = (Some s, None) ->
        Forall (fun t => t <> "" /\ startsWithSpace t = false
                         /\ endsWithSpace t = false)
               [MainCountry s; Title s; Description s]).
Proof.
  assert (Hgen : forall (B : Type) (HB : findable B) (b : B) sel knd s,
             getString b sel knd = (s, None) ->
             s <> "" /\ startsWithSpace s = false /\ endsWithSpace s = false
             /\ strings.TrimSpace s = s).
  { intros B HB b sel knd s. rewrite getString_unfold. unfold fieldText.
    set (raw := if String.eqb sel "" then Text b
                else goquery.Text (Find b sel)).
    destruct (String.eqb_spec (strings.TrimSpace raw) "") as [E|E];
      [discriminate|].
    intros Hs. injection Hs as <-.
    destruct (TrimSpace_trimmed raw) as [H1 [H2 H3]]. auto. }
  split; [apply Hgen|]. split.
  - intros e. rewrite getString_unfold.
    destruct (String.eqb (fieldText d selector) ""); [reflexivity|discriminate].
  - intros body s Hv.
    assert (Hnil : snd (value (parse body)) = None) by (rewrite Hv; reflexivity).
    pose proof Hnil as Hok. apply parse_ok_iff in Hok.
    destruct Hok as [doc [Hd [_ Hall]]].
    destruct (parse_ok_site body doc Hd Hnil) as [s' [Hs' [Hfields _]]].
    assert (s' = s) by (rewrite Hv in Hs'; cbn in Hs'; congruence). subst s'.
    assert (Hfield : forall (f : goquery.Document -> string * option error) t,
               t = fst (f doc) -> snd (f doc) = None ->
               (exists sel knd, f doc = getString doc sel knd) ->
               t <> "" /\ startsWithSpace t = false /\ endsWithSpace t = false).
    { intros f t -> Hsnd [sel [knd Hf]].
      destruct (Hgen _ _ doc sel knd (fst (f doc))) as [H1 [H2 [H3 _]]];
        [|auto].
      rewrite <- Hf. destruct (f doc) as [x o]. cbn in *. now subst o. }
    apply Forall_cons; [|apply Forall_cons; [|apply Forall_cons;
                                                [|apply Forall_nil]]].
    + apply (Hfield country).
      * exact (Hfields call_country ltac:(simpl; auto 15)).
      * exact (Hall call_country ltac:(simpl; auto 15)).
      * eexists _, _. reflexivity.
    + apply (Hfield title).
      * exact (Hfields call_title ltac:(simpl; auto 15)).
      * exact (Hall call_title ltac:(simpl; auto 15)).
      * eexists _, _. reflexivity.
    + apply (Hfield description).
      * exact (Hfields call_description ltac:(simpl; auto 15)).
      * exact (Hall call_description ltac:(simpl; auto 15)).
      * eexists _, _. reflexivity.
Qed.

Lemma First_Last_single s p :
  goquery.Nodes s = [p] -> goquery.Last s = goquery.First s.
Proof.
  intros Hs. unfold goquery.Last, goquery.First. rewrite Hs. reflexivity.
Qed.

(** ** The rows of the visitors table *)

(** X5.  For every row of the visitors table there is a visitor at the
    same place in the list.  Its percentage is the trimmed text of the
    first span of the row's cells, and its rank is the number the trimmed
    text of the last span stands for once its commas are removed, 0 when
    that is not a number within [uint64]; in a row with a single span the
    rank is read from the percentage. *)
Theorem visitors_row_rank d i r :
  nth_error (rows (Find (Find d seVisitors) "tr")) i = Some r ->
  exists v,
    nth_error (fst (visitors d)) i = Some v
    /\ Visitor_Percent v
       = strings.TrimSpace
           (goquery.Text (goquery.First (Find (snd r) "td span")))
    /\ Visitor_LocalRank v
       = numberOf (strings.TrimSpace
                     (goquery.Text (goquery.Last (Find (snd r) "td span"))))
    /\ (forall p, goquery.Nodes (Find (snd r) "td span") = [p] ->
          Visitor_LocalRank v = numberOf (Visitor_Percent v)).
Proof.
  intros Hr. rewrite visitors_unfold. cbn [fst].
  exists (visitorRow (fst r) (snd r)). split.
  - change (stageRows call_visitors d)
      with (rows (Find (Find d seVisitors) "tr")).
    rewrite nth_error_map, Hr. reflexivity.
  - assert (Hrank : Visitor_LocalRank (visitorRow (fst r) (snd r))
                    = numberOf
                        (strings.TrimSpace
                           (goquery.Text
                              (goquery.Last (Find (snd r) "td span"))))).
    { unfold visitorRow. cbn [Visitor_LocalRank].
      rewrite getUint_value, uint_numberOf. reflexivity. }
    split; [reflexivity|]. split; [exact Hrank|].
    intros p Hp. rewrite Hrank. unfold visitorRow. cbn [Visitor_Percent].
    now rewrite (First_Last_single _ p Hp).
Qed.

Lemma visitors_row_rank_witness :
  exists v,
    nth_error (fst (visitors (testdata.doc testdata.full))) 0 = Some v
    /\ Visitor_Percent v = "83.8%" /\ Visitor_LocalRank v = 17%Z.
Proof.
  destruct (visitors_row_rank
              (testdata.doc testdata.full) 0
              (0, goquery.newSingleSelection [0; 1; 5; 0; 0]
                    (testdata.tree testdata.full)) eq_refl)
    as [v [Hv [Hp [Hr _]]]].
  exists v. split; [exact Hv|]. split; [exact Hp|exact Hr].
Defined.

(** ** The transport and the URL *)

Lemma asiLocation_url domain :
  fmt.Sprintf asiLocation [fmt.S_ domain]
  = ("https://www.alexa.com/siteinfo/" ++ domain)%string.
Proof.
  unfold asiLocation. cbn [fmt.Sprintf String.append].
  repeat f_equal. apply append_empty_r.
Qed.

(** [siteInfo] asks the transport once, for its first argument. *)
Lemma siteInfo_transport url (f g : getFunc) :
  f url = g url -> siteInfo url f = siteInfo url g.
Proof. intros Hfg. unfold siteInfo. now rewrite Hfg. Qed.

Lemma siteInfo_200 url (f : getFunc) resp :
  f url = Ok resp -> http.StatusCode resp = http.StatusOK ->
  value (siteInfo url f) = value (parse (http.Body resp))
  /\ calls (siteInfo url f) = call_parse :: calls (parse (http.Body resp)).
Proof.
  intros Hf Hc. unfold siteInfo. rewrite Hf, Hc. cbn [Z.eqb negb].
  unfold call, value, calls. destruct (parse (http.Body resp)) as [r t].
  split; reflexivity.
Qed.

Lemma siteInfo_not_200 url (f : getFunc) resp :
  f url = Ok resp -> http.StatusCode resp <> http.StatusOK ->
  siteInfo url f
  = ((None,
      Some (errorString ("status code: " ++ strconv.Itoa (http.StatusCode resp)
                         ++ ", no data for " ++ url ++ "?"))), []).
Proof.
  intros Hf Hc. unfold siteInfo. rewrite Hf.
  destruct (Z.eqb_spec (http.StatusCode resp) http.StatusOK); [contradiction|].
  cbn [negb]. rewrite Errorf_status. reflexivity.
Qed.

Lemma siteInfo_Err url (f : getFunc) e :
  f url = Err e -> siteInfo url f = ((None, Some e), []).
Proof. intros Hf. unfold siteInfo. rewrite Hf. reflexivity. Qed.

(** [siteInfo] ends without error exactly when the transport answers
    with status 200 and [parse] ends without error on the body. *)
Lemma siteInfo_ok_iff url (f : getFunc) :
  snd (value (siteInfo url f)) = None <->
  exists resp, f url = Ok resp
               /\ http.StatusCode resp = http.StatusOK
               /\ snd (value (parse (http.Body resp))) = None.
Proof.
  destruct (f url) as [resp|e] eqn:Hf.
  - destruct (Z.eq_dec (http.StatusCode resp) http.StatusOK) as [E|E].
    + destruct (siteInfo_200 url f resp Hf E) as [Hv _]. rewrite Hv. split.
      * intros Hnil. exists resp. repeat split; assumption.
      * intros [resp' [Hr [_ Hnil]]]. injection Hr as <-. exact Hnil.
    + rewrite (siteInfo_not_200 url f resp Hf E). split; [discriminate|].
      intros [resp' [Hr [Hc _]]]. injection Hr as <-. contradiction.
  - rewrite (siteInfo_Err url f e Hf). split; [discriminate|].
    intros [resp [Hr _]]. discriminate.
Qed.

(** X6.  [SiteInfo] asks the transport for the URL made of the site-info
    prefix and the domain as it is given, and for nothing else: a
    transport that answers the same at that URL gives the same result.
    [Conf.SiteInfo] on a configuration made by [NewWithClient] does the
    same with the client's [Get].  The transport's error is returned as
    it is, and the error for a status other than 200 quotes the URL, not
    the domain. *)
Theorem SiteInfo_url (get : getFunc) (domain : string) :
  SiteInfo get domain
  = siteInfo ("https://www.alexa.com/siteinfo/" ++ domain)%string get
  /\ Conf_SiteInfo (NewWithClient get) domain = SiteInfo get domain
  /\ (forall get' : getFunc,
        get' ("https://www.alexa.com/siteinfo/" ++ domain)%string
        = get ("https://www.alexa.com/siteinfo/" ++ domain)%string ->
        SiteInfo get' domain = SiteInfo get domain)
  /\ (forall e,
        get ("https://www.alexa.com/siteinfo/" ++ domain)%string = Err e ->
        SiteInfo get domain = ((None, Some e), []))
  /\ (forall resp,
        get ("https://www.alexa.com/siteinfo/" ++ domain)%string = Ok resp ->
        http.StatusCode resp <> http.StatusOK ->
        SiteInfo get domain
        = ((None,
            Some (errorString
                    ("status code: " ++ strconv.Itoa (http.StatusCode resp)
                     ++ ", no data for https://www.alexa.com/siteinfo/"
                     ++ domain ++ "?"))), [])).
Proof.
  assert (Hurl : SiteInfo get domain
                 = siteInfo ("https://www.alexa.com/siteinfo/" ++ domain)%string get).
  { unfold SiteInfo. now rewrite asiLocation_url. }
  split; [exact Hurl|]. split; [reflexivity|]. split; [|split].
  - intros get' Hsame. unfold SiteInfo at 1. rewrite asiLocation_url, Hurl.
    now apply siteInfo_transport.
  - intros e He. rewrite Hurl. now apply siteInfo_Err.
  - intros resp Hr Hc. rewrite Hurl.
    rewrite (siteInfo_not_200 _ get resp Hr Hc). reflexivity.
Qed.

(** X7.  [siteInfo] returns a nil error exactly when the transport
    answers with status 200, the body can be read, has no marker, and no
    extractor fails; it then returns a [Site], having called [parse] and
    through it every extractor.  It never returns nil with nil, and it
    calls [parse] exactly when the transport answers with status 200. *)
Theorem siteInfo_succeeds_iff url (f : getFunc) :
  (snd (value (siteInfo url f)) = None <->
   exists resp d,
     f url = Ok resp /\ http.StatusCode resp = http.StatusOK
     /\ goquery.NewDocumentFromReader (http.Body resp) = Ok d
     /\ noEnoughData d = false
     /\ forall c, In c pipeline -> stageErr c d = None)
  /\ (snd (value (siteInfo url f)) = None ->
      exists s, fst (value (siteInfo url f)) = Some s
                /\ calls (siteInfo url f)
                   = call_parse :: call_noEnoughData :: pipeline)
  /\ (fst (value (siteInfo url f)) = None ->
      snd (value (siteInfo url f)) <> None)
  /\ (In call_parse (calls (siteInfo url f)) <->
      exists resp, f url = Ok resp
                   /\ http.StatusCode resp = http.StatusOK).
Proof.
  split; [|split; [|split]].
  - rewrite siteInfo_ok_iff. split.
    + intros [resp [Hf [Hc Hnil]]]. apply parse_ok_iff in Hnil.
      destruct Hnil as [d Hd]. exists resp, d. tauto.
    + intros [resp [d [Hf [Hc Hd]]]]. exists resp.
      split; [exact Hf|]. split; [exact Hc|].
      apply parse_ok_iff. exists d. exact Hd.
  - intros Hnil. pose proof Hnil as Hok. apply siteInfo_ok_iff in Hok.
    destruct Hok as [resp [Hf [Hc Hp]]].
    destruct (siteInfo_200 url f resp Hf Hc) as [Hv Hcalls].
    pose proof Hp as Hpd. apply parse_ok_iff in Hpd.
    destruct Hpd as [d [Hd _]].
    destruct (parse_ok_site _ d Hd Hp) as [s [Hs [_ Hpc]]].
    exists s. rewrite Hv, Hcalls, Hpc. auto.
  - destruct (f url) as [resp|e] eqn:Hf;
      [|rewrite (siteInfo_Err url f e Hf); discriminate].
    destruct (Z.eq_dec (http.StatusCode resp) http.StatusOK) as [E|E];
      [|rewrite (siteInfo_not_200 url f resp Hf E); discriminate].
    destruct (siteInfo_200 url f resp Hf E) as [Hv _]. rewrite Hv.
    intros Hnone.
    assert (Hb : (exists e, goquery.NewDocumentFromReader (http.Body resp)
                            = Err e)
                 \/ exists d, goquery.NewDocumentFromReader (http.Body resp)
                              = Ok d
                   /\ (noEnoughData d = true \/ snd (globalRank d) <> None)).
    { destruct (goquery.NewDocumentFromReader (http.Body resp)) as [d|e]
        eqn:Hd; [|left; eauto].
      right. exists d. split; [reflexivity|].
      destruct (noEnoughData d) eqn:Hn; [auto|]. right.
      destruct (globalRank d) as [gr [e|]] eqn:Hg; [discriminate|].
      destruct (parse_site_after_globalRank _ d gr Hd Hn Hg) as [s [Hs _]].
      congruence. }
    exact (proj2 (parse_no_site _ Hb)).
  - destruct (f url) as [resp|e] eqn:Hf.
    + destruct (Z.eq_dec (http.StatusCode resp) http.StatusOK) as [E|E].
      * destruct (siteInfo_200 url f resp Hf E) as [_ Hc]. rewrite Hc.
        split; [intros _; exists resp; split; [reflexivity|exact E]|].
        intros _. now left.
      * rewrite (siteInfo_not_200 url f resp Hf E). split; [intros []|].
        intros [resp' [Hr Hc]]. injection Hr as <-. contradiction.
    + rewrite (siteInfo_Err url f e Hf). split; [intros []|].
      intros [resp [Hr _]]. discriminate.
Qed.

(** ** The command *)

Lemma matchChildren_none p kids i :
  goquery.matchChildren (fun _ => false) p kids i = [].
Proof.
  destruct (goquery.matchChildren (fun _ => false) p kids i) as [|y l] eqn:E;
    [reflexivity|].
  assert (Hin : In y (goquery.matchChildren (fun _ => false) p kids i))
    by (rewrite E; now left).
  apply matchChildren_In in Hin.
  destruct Hin as [j [c [s [_ [_ [_ [_ Hm]]]]]]]. discriminate.
Qed.

(** The empty selector does not compile, so [Find] finds nothing with
    it. *)
Lemma Find_empty_selector s :
  goquery.Nodes (goquery.Find s "") = [].
Proof.
  unfold goquery.Find, goquery.findWithMatcher, goquery.mapNodes.
  cbn [goquery.Nodes]. unfold goquery.compileMatcher. cbn [cascadia.compile
    cascadia.fields cascadia.splitAux cascadia.pushTok].
  induction (goquery.Nodes s) as [|p l IH]; [reflexivity|].
  cbn [fold_left].
  destruct (html.deref (goquery.document s) p) as [n|];
    [rewrite matchChildren_none|]; exact IH.
Qed.

Lemma main_getUint_eq d selector kind :
  selector <> "" -> main.getUint d selector kind = getUint d selector kind.
Proof.
  intros Hs. unfold main.getUint, getUint.
  destruct (String.eqb_spec selector ""); [contradiction|]. reflexivity.
Qed.

Lemma main_getString_eq d selector kind :
  selector <> "" -> main.getString d selector kind = getString d selector kind.
Proof.
  intros Hs. unfold main.getString, getString.
  destruct (String.eqb_spec selector ""); [contradiction|]. reflexivity.
Qed.

(** X8.  In the command, [getUint] and [getString] always search the
    document with the selector: for a non-empty selector they return what
    the package's functions return, so the six scalar extractors of the
    two packages agree.  For the empty selector they differ: the command
    always fails with "no <kind> found", since nothing is found, while the
    package's [getString] works on the text of the document itself. *)
Theorem main_getters_agree (d : goquery.Document) :
  (forall selector kind, selector <> "" ->
     main.getUint d selector kind = getUint d selector kind
     /\ main.getString d selector kind = getString d selector kind)
  /\ (forall kind,
        main.getUint d "" kind
        = (0%Z, Some (errorString ("no " ++ kind ++ " found")))
        /\ main.getString d "" kind
           = ("", Some (errorString ("no " ++ kind ++ " found")))
        /\ getString d "" kind
           = (if String.eqb (strings.TrimSpace (Text d)) ""
              then ("", Some (errorString ("no " ++ kind ++ " found")))
              else (strings.TrimSpace (Text d), None)))
  /\ main.globalRank d = globalRank d
  /\ main.localRank d = localRank d
  /\ main.country d = country d
  /\ main.linkingTotal d = linkingTotal d
  /\ main.title d = title d
  /\ main.description d = description d.
Proof.
  split.
  { intros selector kind Hs.
    split; [now apply main_getUint_eq|now apply main_getString_eq]. }
  split.
  { intros kind.
    assert (Ht : strings.TrimSpace (goquery.Text (Find d "")) = "").
    { cbn [Find findable_Document].
      now rewrite (Text_empty _ (Find_empty_selector _)). }
    unfold main.getUint, main.getString. rewrite Ht, Errorf_no_found.
    split; [reflexivity|]. split; [reflexivity|].
    rewrite getString_unfold. reflexivity. }
  repeat split; first [apply main_getUint_eq | apply main_getString_eq];
    discriminate.
Qed.

Lemma uint_getUint {A : Type} `{findable A} (d : A) selector kind :
  uint (fst (getUint d selector kind)) = fst (getUint d selector kind).
Proof. rewrite getUint_value. apply uint_numberOf. Qed.

(** X9.  On a readable file [main] ends with [log.Fatal] exactly when
    one of the six scalar extractors fails, with the error of the first
    that does, and it does not look at the no-data marker.  On a document
    without the marker that error is the one [parse] returns, and [main]
    ends without it exactly when [parse] gets as far as the visitors.
    What [main] has printed are, in order, the first fields of the [Site]
    that [parse] returns, all six of them when it does not end with
    [log.Fatal]; when [parse] returns no [Site] for the lack of a global
    rank, [main] prints nothing. *)
Theorem main_run body d :
  goquery.NewDocumentFromReader body = Ok d ->
  main.fatal (main.main (Ok body))
  = option_map snd (firstFailure d (firstn 6 pipeline))
  /\ (noEnoughData d = false ->
      forall e, main.fatal (main.main (Ok body)) = Some e ->
                snd (value (parse body)) = Some e)
  /\ (noEnoughData d = false ->
      (main.fatal (main.main (Ok body)) = None <->
       In call_visitors (calls (parse body))))
  /\ (forall s, fst (value (parse body)) = Some s ->
        exists n,
          main.logged (main.main (Ok body))
          = firstn n [strconv.Itoa (GlobalRank s); strconv.Itoa (LocalRank s);
                      MainCountry s; strconv.Itoa (LinkingTotal s);
                      Title s; Description s]
          /\ (main.fatal (main.main (Ok body)) = None -> n = 6))
  /\ (fst (value (parse body)) = None -> noEnoughData d = false ->
      main.main (Ok body)
      = main.Fatal [] (errorString "no global rank found")
      \/ exists num k,
          main.main (Ok body) = main.Fatal [] (NumError "ParseUint" num k)).
Proof.
  intros Hd.
  pose proof (uint_getUint d seGlobalRank "global rank") as Hu1.
  pose proof (uint_getUint d seLocalRank "local rank") as Hu2.
  pose proof (uint_getUint d seLinkingTotal "linking total") as Hu3.
  pose proof (fun e => getUint_err d seGlobalRank "global rank" e) as Hge.
  fold (globalRank d) in Hu1, Hge. fold (localRank d) in Hu2.
  fold (linkingTotal d) in Hu3.
  unfold main.main, parse. rewrite Hd.
  change (main.globalRank d) with (globalRank d).
  change (main.localRank d) with (localRank d).
  change (main.country d) with (country d).
  change (main.linkingTotal d) with (linkingTotal d).
  change (main.title d) with (title d).
  change (main.description d) with (description d).
  unfold pipeline, firstn, firstFailure, stageErr, main.Fatal.
  unfold call at 1 2 3 4.
  revert Hu1 Hu2 Hu3 Hge.
  destruct (noEnoughData d);
    unfold call, ret, value, calls;
    all_stages d; cbn [fst snd app main.fatal main.logged option_map];
    intros Hu1 Hu2 Hu3 Hge;
    (split; [reflexivity|]);
    (split; [intros Hn e' He'; first [discriminate Hn | exact He'
                                      | discriminate He']|]);
    (split; [intros Hn; first [discriminate Hn
                              | split; [intros Hf; discriminate Hf
                                       |intros Hin; simpl in Hin;
                                        intuition discriminate]
                              | split; [intros _; simpl; auto 15
                                       |reflexivity]]|]);
    (split; [intros s Hs; try discriminate Hs; injection Hs as <-;
             cbn; rewrite ?Hu1, ?Hu2, ?Hu3;
             first [exists 0; split; [reflexivity|intros Hf; discriminate Hf]
                   |exists 1; split; [reflexivity|intros Hf; discriminate Hf]
                   |exists 2; split; [reflexivity|intros Hf; discriminate Hf]
                   |exists 3; split; [reflexivity|intros Hf; discriminate Hf]
                   |exists 4; split; [reflexivity|intros Hf; discriminate Hf]
                   |exists 5; split; [reflexivity|intros Hf; discriminate Hf]
                   |exists 6; split; reflexivity]
            |]);
    intros Hnone Hn; try discriminate Hnone; try discriminate Hn;
    destruct (Hge _ eq_refl) as [->|[num [k ->]]];
    [left; reflexivity|right; eauto].
Qed.

Lemma main_run_witness :
  main.main (Ok (testdata.page testdata.full))
  = {| main.logged := ["506"; "17"; "Russia"; "8491"; "Sberbank"; "Bank."];
       main.fatal := None |}
  /\ main.fatal (main.main (Ok (testdata.page testdata.full)))
     = option_map snd
         (firstFailure (testdata.doc testdata.full) (firstn 6 pipeline)).
Proof.
  split; [vm_compute; reflexivity|].
  exact (proj1 (main_run (testdata.page testdata.full)
                         (testdata.doc testdata.full) eq_refl)).
Defined.
